(** * Dritchwear: order lifecycle, invoice workflow, payment bridge, wallet history

    A shallow embedding of the logic of
    - the admin order-details modal (handleRefund, handleStatusUpdate,
      handleSendInvoice, canSendInvoice and the controls that reach them),
    - the Paystack payment bridge (the script that runs inside the web view
      and the host-side handleMessage),
    - the wallet-history totals.

    Conventions.
    - A JS [number] of the order modal and of the wallet history is a [Z]:
      the amounts there are whole currency units, on which JS arithmetic is
      exact below 2^53.  The amount of the payment bridge, whose product with
      100 is handed to the provider, is a binary64 [float], multiplied as JS
      multiplies it.
    - An optional field of a TypeScript interface is an [option].
    - The hosted backend is a [Store] of tables; every awaited supabase call
      is one [Call], answered either by a scripted transport fault or by the
      store itself.  The client code is written in a small state-and-exception
      monad over a [World] that also records the calls issued and the
      user-interface effects, in order.
    - The order a handler works on is the copy the screen fetched (with the
      joined [profiles] record), which is distinct from the rows of the store.
    - The page of the payment bridge is a state machine over the events of
      its environment (presses, timers, provider callbacks); a message posted
      to the host is a variant, its JSON encoding is left out.  The props of
      the bridge are spliced into the text of the page; the state machine is
      the page that results when every prop stands in it as the literal it is
      meant to be ([spliceable]). *)

From Stdlib Require Import ZArith List String Ascii Bool Lia Floats.
From stdpp Require Import base gmap strings list.

Local Open Scope Z_scope.
Local Open Scope string_scope.

(** ** JavaScript helpers *)

Module Js.

Definition dquote : string := String "034"%char EmptyString.

(** [c.toUpperCase()] on the ASCII letters. *)
Definition toUpperChar (c : ascii) : ascii :=
  let n := nat_of_ascii c in
  if (97 <=? n)%nat && (n <=? 122)%nat then ascii_of_nat (n - 32) else c.

(** [s.charAt(0).toUpperCase() + s.slice(1)] *)
Definition capitalize (s : string) : string :=
  match s with
  | EmptyString => EmptyString
  | String c rest => String (toUpperChar c) rest
  end.

(** [s.substring(0, 8)] *)
Definition substring8 (s : string) : string := String.substring 0 8 s.

(** [hay.includes(needle)] *)
Fixpoint includes (hay needle : string) : bool :=
  String.prefix needle hay ||
  match hay with
  | EmptyString => false
  | String _ rest => includes rest needle
  end.

(** Truthiness of an optional string: [undefined] and [''] are falsy. *)
Definition truthy (s : option string) : bool :=
  match s with
  | Some (String _ _) => true
  | _ => false
  end.

(** [a || b] on optional strings. *)
Definition or_else (a b : option string) : option string :=
  if truthy a then a else b.

(** A template-literal hole filled with an optional string. *)
Definition show (s : option string) : string :=
  match s with
  | Some v => v
  | None => "undefined"
  end.

(** A number spliced into a script as [${x}] and read back by the page:
    the text of a double denotes that double, but for [-0], whose text is
    [0]. *)
Definition numberLiteral (x : float) : float :=
  if PrimFloat.eqb x 0%float then 0%float else x.

(** The integer a double stands for, when it is one. *)
Definition exactZ (x : float) : option Z :=
  match Prim2SF x with
  | S754_zero _ => Some 0
  | S754_finite sign m e =>
      let v := if sign then Z.neg m else Z.pos m in
      if (0 <=? e)%Z then Some (v * 2 ^ e)
      else if (Z.pos m mod 2 ^ (- e) =? 0)%Z then Some (v / 2 ^ (- e))
      else None
  | S754_infinity _ | S754_nan => None
  end.

(** The characters that end or escape a string literal of a script, or open
    a tag or an entity in the text of a page: the two quotes, the backslash,
    the angle brackets and the ampersand; and whatever is not a printable
    ASCII character, line breaks among them. *)
Definition breaks_literal (c : ascii) : bool :=
  let n := nat_of_ascii c in
  existsb (Nat.eqb n) [39; 34; 92; 60; 62; 38]%nat
  || (n <? 32)%nat || (126 <? n)%nat.

(** Whether a string spliced between quotes, as in ['${s}'], stands there as
    the literal of [s]. *)
Fixpoint plain (s : string) : bool :=
  match s with
  | EmptyString => true
  | String c rest => negb (breaks_literal c) && plain rest
  end.

(** The string literal that the text [s] makes when it is spliced after an
    opening quote [q], as in ['${s}']: the literal ends at the first [q] of
    the text, and what follows is read as script.  (Escapes are not
    interpreted: a text with a backslash is not [plain].) *)
Fixpoint literal (q : ascii) (s : string) : string :=
  match s with
  | EmptyString => EmptyString
  | String c rest => if Ascii.eqb c q then EmptyString else String c (literal q rest)
  end.

Definition singleQuote : ascii := "039"%char.
Definition doubleQuote : ascii := "034"%char.

End Js.

(** ** The backing store *)

(** What supabase reports in the [error] field of a response. *)
Record PgError := { code : string; message : string }.

Record ProfileRow := {
  p_full_name : string;
  p_email : string;
  p_wallet_balance : Z;
  p_preferred_currency : option string }.

Record OrderRow := {
  o_user_id : string;
  o_total : Z;
  o_payment_status : string;
  o_order_status : string }.

Record CustomRequestRow := {
  c_user_id : string;
  c_title : string;
  c_status : string;
  c_invoice_sent : bool }.

Record TransactionRow := {
  t_user_id : string;
  t_type : string;
  t_amount : Z;
  t_description : string;
  t_reference : string;
  t_status : string }.

Record InvoiceRow := {
  i_custom_request_id : string;
  i_user_id : string;
  i_amount : Z;
  i_original_amount : Z;
  i_currency : string;
  i_description : string;
  i_status : string }.

Record NotificationRow := {
  n_user_id : string;
  n_title : string;
  n_message : string;
  n_type : string;
  n_is_read : bool }.

Record Store := {
  tbl_profiles : gmap string ProfileRow;
  tbl_orders : gmap string OrderRow;
  tbl_custom_requests : gmap string CustomRequestRow;
  tbl_transactions : list TransactionRow;
  tbl_invoices : list InvoiceRow;
  tbl_notifications : list NotificationRow }.

(** The supabase calls the modal issues, one constructor per call site. *)
Inductive Call :=
| UpdateWallet (user : string) (balance : Z)
    (* from('profiles').update({wallet_balance}).eq('id', user) *)
| InsertTransaction (t : TransactionRow)
| UpdatePaymentStatus (order : string) (v : string)
    (* from('orders').update({payment_status: v}).eq('id', order) *)
| UpdateOrderStatus (order : string) (v : string)
    (* from('orders').update({order_status: v}).eq('id', order) *)
| UpdateCustomStatus (request : string) (v : string)
    (* from('custom_requests').update({status: v}).eq('id', request) *)
| InsertNotification (n : NotificationRow)
| InsertInvoice (i : InvoiceRow)
| MarkInvoiceSent (request : string) (v : string) (sent : bool)
    (* from('custom_requests').update({status: v, invoice_sent: sent}).eq('id', request) *).

Definition set_wallet (b : Z) (r : ProfileRow) : ProfileRow :=
  {| p_full_name := p_full_name r; p_email := p_email r;
     p_wallet_balance := b; p_preferred_currency := p_preferred_currency r |}.

Definition set_payment_status (v : string) (r : OrderRow) : OrderRow :=
  {| o_user_id := o_user_id r; o_total := o_total r;
     o_payment_status := v; o_order_status := o_order_status r |}.

Definition set_order_status (v : string) (r : OrderRow) : OrderRow :=
  {| o_user_id := o_user_id r; o_total := o_total r;
     o_payment_status := o_payment_status r; o_order_status := v |}.

Definition set_custom (v : string) (sent : bool) (r : CustomRequestRow) : CustomRequestRow :=
  {| c_user_id := c_user_id r; c_title := c_title r;
     c_status := v; c_invoice_sent := sent |}.

Definition with_profiles (s : Store) (m : gmap string ProfileRow) : Store :=
  {| tbl_profiles := m; tbl_orders := tbl_orders s;
     tbl_custom_requests := tbl_custom_requests s;
     tbl_transactions := tbl_transactions s; tbl_invoices := tbl_invoices s;
     tbl_notifications := tbl_notifications s |}.

Definition with_orders (s : Store) (m : gmap string OrderRow) : Store :=
  {| tbl_profiles := tbl_profiles s; tbl_orders := m;
     tbl_custom_requests := tbl_custom_requests s;
     tbl_transactions := tbl_transactions s; tbl_invoices := tbl_invoices s;
     tbl_notifications := tbl_notifications s |}.

Definition with_custom_requests (s : Store) (m : gmap string CustomRequestRow) : Store :=
  {| tbl_profiles := tbl_profiles s; tbl_orders := tbl_orders s;
     tbl_custom_requests := m;
     tbl_transactions := tbl_transactions s; tbl_invoices := tbl_invoices s;
     tbl_notifications := tbl_notifications s |}.

Definition with_transactions (s : Store) (l : list TransactionRow) : Store :=
  {| tbl_profiles := tbl_profiles s; tbl_orders := tbl_orders s;
     tbl_custom_requests := tbl_custom_requests s;
     tbl_transactions := l; tbl_invoices := tbl_invoices s;
     tbl_notifications := tbl_notifications s |}.

Definition with_invoices (s : Store) (l : list InvoiceRow) : Store :=
  {| tbl_profiles := tbl_profiles s; tbl_orders := tbl_orders s;
     tbl_custom_requests := tbl_custom_requests s;
     tbl_transactions := tbl_transactions s; tbl_invoices := l;
     tbl_notifications := tbl_notifications s |}.

Definition with_notifications (s : Store) (l : list NotificationRow) : Store :=
  {| tbl_profiles := tbl_profiles s; tbl_orders := tbl_orders s;
     tbl_custom_requests := tbl_custom_requests s;
     tbl_transactions := tbl_transactions s; tbl_invoices := tbl_invoices s;
     tbl_notifications := l |}.

(** The invoices already stored for a custom request. *)
Definition invoices_of (request : string) (s : Store) : list InvoiceRow :=
  List.filter (fun i => String.eqb (i_custom_request_id i) request) (tbl_invoices s).

(** The error Postgres raises for a duplicate key on the constraint
    [unique_invoice_per_custom_request]. *)
Definition unique_violation : PgError :=
  {| code := "23505";
     message := "duplicate key value violates unique constraint "
                ++ Js.dquote ++ "unique_invoice_per_custom_request" ++ Js.dquote |}.

(** Modelled from the spec: the backing store itself (a hosted service, not
    part of the sources).  An update by id rewrites the row with that id and
    is silent when there is none; an insert appends a row; the invoices table
    carries the uniqueness constraint on the custom request ("at most one
    invoice per custom order ... enforced by the backing store") and answers
    a second insert with [unique_violation], leaving the table as it was. *)
Definition exec (c : Call) (s : Store) : option PgError * Store :=
  match c with
  | UpdateWallet u b =>
      (None, with_profiles s (alter (set_wallet b) u (tbl_profiles s)))
  | InsertTransaction t =>
      (None, with_transactions s (tbl_transactions s ++ [t]))
  | UpdatePaymentStatus o v =>
      (None, with_orders s (alter (set_payment_status v) o (tbl_orders s)))
  | UpdateOrderStatus o v =>
      (None, with_orders s (alter (set_order_status v) o (tbl_orders s)))
  | UpdateCustomStatus r v =>
      (None, with_custom_requests s
               (alter (fun row => set_custom v (c_invoice_sent row) row) r
                      (tbl_custom_requests s)))
  | InsertNotification n =>
      (None, with_notifications s (tbl_notifications s ++ [n]))
  | InsertInvoice i =>
      match invoices_of (i_custom_request_id i) s with
      | [] => (None, with_invoices s (tbl_invoices s ++ [i]))
      | _ :: _ => (Some unique_violation, s)
      end
  | MarkInvoiceSent r v sent =>
      (None, with_custom_requests s
               (alter (set_custom v sent) r (tbl_custom_requests s)))
  end.

(** ** The world the modal runs in *)

Inductive UiEffect :=
| Alert (title body : string)
| ConsoleError (label : string)
| SetUpdating (b : bool)
| SetShowInvoiceModal (b : bool)
| ResetInvoiceData
| DownloadImage (url : string)
| OnOrderUpdate
| OnClose.

Record World := {
  store : Store;
  faults : list (option PgError);
      (* transport outcome of the next calls: [Some e] makes the call fail
         with [e] before it reaches the store; past the end, no fault *)
  calls : list Call;          (* the calls issued so far, oldest first *)
  ui : list UiEffect          (* the interface effects so far, oldest first *) }.

Inductive Outcome (A : Type) :=
| Returned (a : A)
| Thrown (e : PgError).
Arguments Returned {A} a.
Arguments Thrown {A} e.

Definition M (A : Type) : Type := World -> Outcome A * World.

Definition ret {A} (a : A) : M A := fun w => (Returned a, w).

Definition bind {A B} (m : M A) (k : A -> M B) : M B :=
  fun w =>
    match m w with
    | (Returned a, w') => k a w'
    | (Thrown e, w') => (Thrown e, w')
    end.

Definition throw {A} (e : PgError) : M A := fun w => (Thrown e, w).

(** [try { body } catch (error) { handler }] *)
Definition try_catch {A} (body : M A) (handler : PgError -> M A) : M A :=
  fun w =>
    match body w with
    | (Returned a, w') => (Returned a, w')
    | (Thrown e, w') => handler e w'
    end.

(** [try { body } finally { cleanup }] *)
Definition finally {A} (body : M A) (cleanup : M unit) : M A :=
  fun w =>
    match body w with
    | (r, w') =>
        match cleanup w' with
        | (Returned _, w'') => (r, w'')
        | (Thrown e, w'') => (Thrown e, w'')
        end
    end.

Declare Scope js_scope.
Delimit Scope js_scope with js.
Notation "x <- m ;; k" := (bind m (fun x => k))
  (at level 100, m at next level, right associativity) : js_scope.
Notation "m ;;; k" := (bind m (fun _ => k))
  (at level 100, right associativity) : js_scope.

Definition effect (e : UiEffect) : M unit :=
  fun w =>
    (Returned tt,
     {| store := store w; faults := faults w; calls := calls w;
        ui := ui w ++ [e] |}).

(** The transport outcome scripted for the next call. *)
Definition next_fault (w : World) : option PgError :=
  match faults w with
  | x :: _ => x
  | [] => None
  end.

(** [await supabase.from(..)...]: the call is recorded, then answered by the
    next scripted fault if there is one, by the store otherwise.  The awaited
    value is the [error] field of the response. *)
Definition supabase (c : Call) : M (option PgError) :=
  fun w =>
    match next_fault w with
    | Some e =>
        (Returned (Some e),
         {| store := store w; faults := tl (faults w); calls := calls w ++ [c];
            ui := ui w |})
    | None =>
        let (err, s') := exec c (store w) in
        (Returned err,
         {| store := s'; faults := tl (faults w); calls := calls w ++ [c];
            ui := ui w |})
    end.

(** The transport outcome scripted for the call after [n] others. *)
Definition fault_at (n : nat) (fs : list (option PgError)) : option PgError :=
  nth n fs None.

(** The store is reachable for the next [n] calls. *)
Fixpoint accepts (n : nat) (fs : list (option PgError)) : bool :=
  match n, fs with
  | O, _ => true
  | S _, [] => true
  | S k, None :: rest => accepts k rest
  | S _, Some _ :: _ => false
  end.

(** [if (error) throw error;] *)
Definition throw_if (err : option PgError) : M unit :=
  match err with
  | Some e => throw e
  | None => ret tt
  end.

(** ** The order-details modal *)

Module OrderDetailsModal.

Record OrderItem := {
  item_product_id : string;
  item_name : string;
  item_price : Z;
  item_quantity : Z;
  item_size : string;
  item_color : string }.

Record Invoice := {
  inv_id : string;
  inv_amount : Z;
  inv_description : string;
  inv_status : string;
  inv_currency : string;
  inv_original_amount : Z;
  inv_created_at : string }.

(** The joined [profiles] record of a fetched order. *)
Record ProfileCopy := {
  full_name : string;
  email : string;
  wallet_balance : Z;
  preferred_currency : option string }.

(** [interface Order]: the copy of an order (standard or custom) that the
    screen fetched and handed to the modal. *)
Record Order := {
  id : string;
  user_id : string;
  items : option (list OrderItem);
  total : Z;
  payment_status : option string;
  order_status : option string;
  currency : option string;
  profiles : option ProfileCopy;
  title : option string;
  logo_url : option string;
  status : option string;
  invoice_sent : option bool;
  invoices : option (list Invoice) }.

Record InvoiceData := { amount : string; description : string }.

(** What the closures of the component see: its props, the ambient
    authentication context and its state. *)
Record Modal := {
  order : Order;
  visible : bool;
  isAdmin : bool;
  updating : bool;
  showInvoiceModal : bool;
  invoiceData : InvoiceData }.

Definition statusOptions : list string :=
  ["pending"; "confirmed"; "processing"; "shipped"; "delivered"; "cancelled"].

Definition customStatusOptions : list string :=
  ["pending"; "under_review"; "quoted"; "accepted"; "rejected"; "payment_made";
   "completed"; "cancelled"].

(** [x === 'lit'] on an optional string field *)
Definition equals (x : option string) (lit : string) : bool :=
  match x with
  | Some v => String.eqb v lit
  | None => false
  end.

(** [!order.items] *)
Definition isCustomOrder (o : Order) : bool :=
  match items o with
  | Some _ => false
  | None => true
  end.

Definition currentStatus (o : Order) : option string :=
  if isCustomOrder o then status o else order_status o.

Definition getActualPaymentCurrency (o : Order) : string :=
  if isCustomOrder o then
    match Js.or_else (Js.or_else (currency o)
                        (match profiles o with
                         | Some p => preferred_currency p
                         | None => None
                         end))
                     (Some "NGN") with
    | Some c => c
    | None => "NGN"
    end
  else
    match Js.or_else (currency o) (Some "NGN") with
    | Some c => c
    | None => "NGN"
    end.

Definition actualPaymentCurrency (o : Order) : string := getActualPaymentCurrency o.

Section OrderDetailsModal.

(** [parseFloat], on the amounts typed into the invoice form. *)
Variable parseFloat : string -> Z.

(** [convertToNGN] of [@/lib/currency], which is not among the sources. *)
Variable convertToNGN : Z -> string -> Z.

Local Open Scope js_scope.

Definition handleRefund (m : Modal) : M unit :=
  let order := order m in
  match profiles order with
  | None => ret tt
  | Some p =>
      try_catch
        (walletError <- supabase
           (UpdateWallet (user_id order) (wallet_balance p + total order)) ;;
         throw_if walletError ;;;
         transactionError <- supabase
           (InsertTransaction
              {| t_user_id := user_id order;
                 t_type := "credit";
                 t_amount := total order;
                 t_description :=
                   "Refund for cancelled order #" ++ Js.substring8 (id order);
                 t_reference := id order;
                 t_status := "completed" |}) ;;
         throw_if transactionError ;;;
         paymentError <- supabase (UpdatePaymentStatus (id order) "refunded") ;;
         throw_if paymentError)
        (fun error =>
           effect (ConsoleError "Error processing refund:") ;;;
           throw error)
  end.

(** The status write of [handleStatusUpdate]: table and field follow the
    kind of the order. *)
Definition statusWrite (o : Order) (newStatus : string) : Call :=
  if isCustomOrder o then UpdateCustomStatus (id o) newStatus
  else UpdateOrderStatus (id o) newStatus.

Definition statusNotification (o : Order) (newStatus : string) : NotificationRow :=
  {| n_user_id := user_id o;
     n_title := "Order " ++ Js.capitalize newStatus;
     n_message :=
       if isCustomOrder o
       then "Your custom order " ++ Js.dquote ++ Js.show (title o) ++ Js.dquote
            ++ " has been " ++ newStatus
       else "Your order #" ++ Js.substring8 (id o) ++ " has been " ++ newStatus;
     n_type := "order";
     n_is_read := false |}.

Definition handleStatusUpdate (m : Modal) (newStatus : string) : M unit :=
  let order := order m in
  effect (SetUpdating true) ;;;
  finally
    (try_catch
       ((if String.eqb newStatus "cancelled" && negb (isCustomOrder order)
            && equals (payment_status order) "paid"
         then handleRefund m else ret tt) ;;;
        error <- supabase (statusWrite order newStatus) ;;
        throw_if error ;;;
        _ <- supabase (InsertNotification (statusNotification order newStatus)) ;;
        effect (Alert "Success" "Order status updated successfully") ;;;
        effect OnOrderUpdate ;;;
        effect OnClose)
       (fun error =>
          effect (ConsoleError "Error updating status:") ;;;
          effect (Alert "Error" "Failed to update order status")))
    (effect (SetUpdating false)).

Definition invoiceNotification (o : Order) : NotificationRow :=
  {| n_user_id := user_id o;
     n_title := "Invoice Received";
     n_message :=
       "You've received an invoice for your custom order " ++ Js.dquote
       ++ Js.show (title o) ++ Js.dquote ++ ". Please review and respond.";
     n_type := "custom";
     n_is_read := false |}.

Definition alreadySentBody : string :=
  "An invoice has already been sent for this custom order. Only one invoice can be sent per order.".

Definition handleSendInvoice (m : Modal) : M unit :=
  let order := order m in
  let invoiceData := invoiceData m in
  if String.eqb (amount invoiceData) "" || String.eqb (description invoiceData) "" then
    effect (Alert "Error" "Please fill in all invoice fields")
  else if match invoice_sent order with Some b => b | None => false end then
    effect (Alert "Invoice Already Sent" alreadySentBody)
  else if match invoices order with
          | Some (_ :: _) => true
          | _ => false
          end then
    effect (Alert "Invoice Already Exists"
              "An invoice already exists for this custom order.")
  else
    try_catch
      (let amountInCustomerCurrency := parseFloat (amount invoiceData) in
       let amountInNGN :=
         if String.eqb (actualPaymentCurrency order) "NGN"
         then amountInCustomerCurrency
         else convertToNGN amountInCustomerCurrency (actualPaymentCurrency order) in
       invoiceError <- supabase
         (InsertInvoice
            {| i_custom_request_id := id order;
               i_user_id := user_id order;
               i_amount := amountInNGN;
               i_original_amount := amountInCustomerCurrency;
               i_currency := actualPaymentCurrency order;
               i_description := description invoiceData;
               i_status := "sent" |}) ;;
       match invoiceError with
       | Some e =>
           if String.eqb (code e) "23505"
              && Js.includes (message e) "unique_invoice_per_custom_request"
           then effect (Alert "Invoice Already Exists" alreadySentBody)
           else throw e
       | None =>
           statusError <- supabase (MarkInvoiceSent (id order) "quoted" true) ;;
           throw_if statusError ;;;
           _ <- supabase (InsertNotification (invoiceNotification order)) ;;
           effect (Alert "Success"
                     ("Invoice sent successfully in " ++ actualPaymentCurrency order)) ;;;
           effect (SetShowInvoiceModal false) ;;;
           effect ResetInvoiceData ;;;
           effect OnOrderUpdate
       end)
      (fun error =>
         effect (ConsoleError "Error sending invoice:") ;;;
         effect (Alert "Error" "Failed to send invoice")).

(** [canSendInvoice()] *)
Definition canSendInvoice (m : Modal) : bool :=
  let order := order m in
  if negb (isAdmin m) || negb (isCustomOrder order) then false
  else if existsb (String.eqb (match currentStatus order with
                               | Some s => s
                               | None => ""
                               end))
                  ["completed"; "cancelled"; "rejected"] then false
  else if (match invoice_sent order with Some b => b | None => false end)
          || (match invoices order with Some (_ :: _) => true | _ => false end)
       then false
  else true.

End OrderDetailsModal.

(** *** The controls that reach the handlers *)

Inductive Press :=
| PressCloseButton
| PressStatusOption (status : string)
| PressDownloadLogo
| PressSendInvoiceButton
| PressInvoiceModalCancel
| PressInvoiceModalSend.

Definition currentStatusText (o : Order) : string :=
  match currentStatus o with
  | Some s => s
  | None => ""
  end.

(** Whether the control is on screen and enabled, following the conditions
    of the JSX. *)
Definition pressable (m : Modal) (p : Press) : bool :=
  let o := order m in
  match p with
  | PressCloseButton => visible m
  | PressStatusOption s =>
      visible m && isAdmin m
      && negb (existsb (String.eqb (currentStatusText o))
                 ["completed"; "cancelled"; "delivered"; "rejected"])
      && existsb (String.eqb s)
           (if isCustomOrder o then customStatusOptions else statusOptions)
      && negb (updating m || equals (currentStatus o) s)
  | PressDownloadLogo => visible m && isCustomOrder o && Js.truthy (logo_url o)
  | PressSendInvoiceButton => visible m && canSendInvoice m
  | PressInvoiceModalCancel | PressInvoiceModalSend =>
      isAdmin m && isCustomOrder o && showInvoiceModal m
  end.

(** *** Names for what the properties speak about *)

(** The world in which the body of [handleStatusUpdate] starts. *)
Definition begin_update (w : World) : World :=
  snd (effect (SetUpdating true) w).

Definition is_status_write (c : Call) : bool :=
  match c with
  | UpdateOrderStatus _ _ | UpdateCustomStatus _ _ => true
  | _ => false
  end.

Definition is_refund_call (c : Call) : bool :=
  match c with
  | UpdateWallet _ _ | InsertTransaction _ | UpdatePaymentStatus _ _ => true
  | _ => false
  end.

(** The three calls of the refund, as [handleRefund] builds them. *)
Definition creditWallet (o : Order) (p : ProfileCopy) : Call :=
  UpdateWallet (user_id o) (wallet_balance p + total o).

Definition refundEntry (o : Order) : TransactionRow :=
  {| t_user_id := user_id o; t_type := "credit"; t_amount := total o;
     t_description := "Refund for cancelled order #" ++ Js.substring8 (id o);
     t_reference := id o; t_status := "completed" |}.

Definition markRefunded (o : Order) : Call :=
  UpdatePaymentStatus (id o) "refunded".

Definition already_sent_title (t : string) : bool :=
  String.eqb t "Invoice Already Sent" || String.eqb t "Invoice Already Exists".

Section Controls.

Variable parseFloat : string -> Z.
Variable convertToNGN : Z -> string -> Z.

Local Open Scope js_scope.

(** The invoice that [handleSendInvoice] builds from the form. *)
Definition builtInvoice (m : Modal) : InvoiceRow :=
  let o := order m in
  let entered := parseFloat (amount (invoiceData m)) in
  let cur := actualPaymentCurrency o in
  {| i_custom_request_id := id o;
     i_user_id := user_id o;
     i_amount := if String.eqb cur "NGN" then entered else convertToNGN entered cur;
     i_original_amount := entered;
     i_currency := cur;
     i_description := description (invoiceData m);
     i_status := "sent" |}.

(** The [onPress] of each control; a control that is absent or disabled
    receives no press. *)
Definition press (m : Modal) (p : Press) : M unit :=
  if pressable m p then
    match p with
    | PressCloseButton => effect OnClose
    | PressStatusOption s => handleStatusUpdate m s
    | PressDownloadLogo => effect (DownloadImage (Js.show (logo_url (order m))))
    | PressSendInvoiceButton => effect (SetShowInvoiceModal true)
    | PressInvoiceModalCancel => effect (SetShowInvoiceModal false)
    | PressInvoiceModalSend => handleSendInvoice parseFloat convertToNGN m
    end
  else ret tt.

End Controls.

(** *** Status badge *)

(** The cases of the [switch] of [getStatusColor], in source order. *)
Definition statusColors : list (string * string) :=
  [("pending", "#F59E0B"); ("confirmed", "#10B981"); ("processing", "#3B82F6");
   ("shipped", "#8B5CF6"); ("delivered", "#059669"); ("cancelled", "#EF4444");
   ("under_review", "#3B82F6"); ("quoted", "#F59E0B"); ("accepted", "#10B981");
   ("rejected", "#EF4444"); ("payment_made", "#8B5CF6"); ("completed", "#059669")].

Definition defaultColor : string := "#6B7280".

Fixpoint switch (cases : list (string * string)) (default : string) (x : string) : string :=
  match cases with
  | [] => default
  | (label, value) :: rest =>
      if String.eqb x label then value else switch rest default x
  end.

Definition getStatusColor (status : string) : string :=
  switch statusColors defaultColor status.

(** The colour of the badge: [getStatusColor(currentStatus || '')]. *)
Definition badgeColor (o : Order) : string :=
  getStatusColor (currentStatusText o).

(** The condition of the card that says an invoice has already been sent. *)
Definition invoiceAlreadySentCard (m : Modal) : bool :=
  isAdmin m && isCustomOrder (order m)
  && ((match invoice_sent (order m) with Some b => b | None => false end)
      || (match invoices (order m) with Some (_ :: _) => true | _ => false end)).

Definition is_alert (e : UiEffect) : bool :=
  match e with
  | Alert _ _ => true
  | _ => false
  end.

(** The test [handleSendInvoice] applies to the error of the insert. *)
Definition recognised (e : PgError) : bool :=
  String.eqb (code e) "23505"
  && Js.includes (message e) "unique_invoice_per_custom_request".

End OrderDetailsModal.



(** ** The payment bridge *)

Module PaystackPayment.

Record Props := {
  email : string;
  amount : float;
  publicKey : string;
  customerName : string }.

(** The template of the page takes [publicKey] and [email] between single
    quotes and [customerName] between double quotes in the script, and
    [email] once more as text of the page.  The props are spliceable when
    each of them stands there as the literal it is meant to be; a prop with
    a quote, a backslash, an angle bracket, an ampersand, a line break or a
    character outside printable ASCII can make another page (a script that
    does not parse, or one that runs what the prop holds), which the state
    machine below does not describe. *)
Definition spliceable (p : Props) : bool :=
  Js.plain (publicKey p) && Js.plain (email p) && Js.plain (customerName p).

(** Convert amount to kobo. *)
Definition amountInKobo (p : Props) : float := (amount p * 100)%float.

(** The configuration object handed to [PaystackPop.setup]. *)
Record Setup := {
  cfg_key : string;
  cfg_email : string;
  cfg_amount : float;
  cfg_currency : string;
  cfg_ref : Z;                 (* the integer that follows the prefix dw_ *)
  cfg_customer_name : string }.

(** What the page posts to the host. *)
Inductive Message :=
| MsgSuccess (data : string)
| MsgCancel
| MsgError (message : string).

(** The calls of the host callbacks received through the props. *)
Inductive HostCall :=
| OnSuccess (data : string)
| OnCancel.

(** Which bridge object the page finds on [window]. *)
Inductive Channel :=
| ReactNativeWebView
| WebkitMessageHandler
| NoChannel.

Record Page := {
  paymentInProgress : bool;
  retryCount : nat;
  payButtonDisabled : bool;
  loadingShown : bool;
  errorShown : bool;
  errorText : string;
  PaystackPop : bool;       (* typeof PaystackPop !== 'undefined' *)
  channel : Channel;
  autoTriggerPending : bool; (* the 1500 ms timer set on load has not fired *)
  setups : list Setup;      (* what PaystackPop.setup received, oldest first *)
  pendingOpen : nat;        (* 100 ms timers that will call handler.openIframe *)
  checkoutOpen : nat;       (* checkouts the provider is showing *)
  pendingHide : nat;        (* 2000 ms timers that will hide the error *)
  host : list HostCall      (* host callbacks invoked so far, oldest first *) }.

Definition maxRetries : nat := 3.

(** The page as the web view first shows it. *)
Definition present (loaded : bool) (ch : Channel) : Page :=
  {| paymentInProgress := false; retryCount := 0; payButtonDisabled := false;
     loadingShown := false; errorShown := false; errorText := "";
     PaystackPop := loaded; channel := ch; autoTriggerPending := true;
     setups := []; pendingOpen := 0; checkoutOpen := 0; pendingHide := 0;
     host := [] |}.

Definition showLoading (s : Page) : Page :=
  {| paymentInProgress := paymentInProgress s; retryCount := retryCount s;
     payButtonDisabled := true; loadingShown := true; errorShown := false;
     errorText := errorText s; PaystackPop := PaystackPop s; channel := channel s;
     autoTriggerPending := autoTriggerPending s; setups := setups s;
     pendingOpen := pendingOpen s; checkoutOpen := checkoutOpen s;
     pendingHide := pendingHide s; host := host s |}.

Definition hideLoading (s : Page) : Page :=
  {| paymentInProgress := paymentInProgress s; retryCount := retryCount s;
     payButtonDisabled := false; loadingShown := false; errorShown := errorShown s;
     errorText := errorText s; PaystackPop := PaystackPop s; channel := channel s;
     autoTriggerPending := autoTriggerPending s; setups := setups s;
     pendingOpen := pendingOpen s; checkoutOpen := checkoutOpen s;
     pendingHide := pendingHide s; host := host s |}.

Definition showError (text : string) (s : Page) : Page :=
  hideLoading
    {| paymentInProgress := paymentInProgress s; retryCount := retryCount s;
       payButtonDisabled := payButtonDisabled s; loadingShown := loadingShown s;
       errorShown := true; errorText := text; PaystackPop := PaystackPop s;
       channel := channel s; autoTriggerPending := autoTriggerPending s;
       setups := setups s; pendingOpen := pendingOpen s;
       checkoutOpen := checkoutOpen s; pendingHide := pendingHide s;
       host := host s |}.

Definition set_paymentInProgress (b : bool) (s : Page) : Page :=
  {| paymentInProgress := b; retryCount := retryCount s;
     payButtonDisabled := payButtonDisabled s; loadingShown := loadingShown s;
     errorShown := errorShown s; errorText := errorText s;
     PaystackPop := PaystackPop s; channel := channel s;
     autoTriggerPending := autoTriggerPending s; setups := setups s;
     pendingOpen := pendingOpen s; checkoutOpen := checkoutOpen s;
     pendingHide := pendingHide s; host := host s |}.

(** Host side: [handleMessage] on a message that parsed. *)
Definition handleMessage (msg : Message) : HostCall :=
  match msg with
  | MsgSuccess data => OnSuccess data
  | MsgCancel => OnCancel
  | MsgError _ => OnCancel
  end.

Definition deliver (c : HostCall) (s : Page) : Page :=
  {| paymentInProgress := paymentInProgress s; retryCount := retryCount s;
     payButtonDisabled := payButtonDisabled s; loadingShown := loadingShown s;
     errorShown := errorShown s; errorText := errorText s;
     PaystackPop := PaystackPop s; channel := channel s;
     autoTriggerPending := autoTriggerPending s; setups := setups s;
     pendingOpen := pendingOpen s; checkoutOpen := checkoutOpen s;
     pendingHide := pendingHide s; host := host s ++ [c] |}.

(** Page side: [postMessage(data)]; without a bridge object the message is
    only logged. *)
Definition postMessage (msg : Message) (s : Page) : Page :=
  match channel s with
  | ReactNativeWebView | WebkitMessageHandler => deliver (handleMessage msg) s
  | NoChannel => s
  end.

(** The environment's part in one call of [payWithPaystack]: the random
    number drawn for the reference, and the message of the exception when
    [PaystackPop.setup] throws. *)
Record Attempt := { rnd : Z; setupError : option string }.

(** The argument of [PaystackPop.setup] as the page reads it from its
    script: [key: '${publicKey}'], [email: '${email}'],
    [amount: ${amountInKobo}] and [value: "${customerName}"]. *)
Definition setupConfig (p : Props) (a : Attempt) : Setup :=
  {| cfg_key := Js.literal Js.singleQuote (publicKey p);
     cfg_email := Js.literal Js.singleQuote (email p);
     cfg_amount := Js.numberLiteral (amountInKobo p); cfg_currency := "NGN";
     cfg_ref := rnd a;
     cfg_customer_name := Js.literal Js.doubleQuote (customerName p) |}.

Definition payWithPaystack (p : Props) (a : Attempt) (s : Page) : Page :=
  if paymentInProgress s then s
  else if negb (PaystackPop s) then
    if (retryCount s <? maxRetries)%nat then
      let s1 :=
        {| paymentInProgress := paymentInProgress s;
           retryCount := S (retryCount s);
           payButtonDisabled := payButtonDisabled s; loadingShown := loadingShown s;
           errorShown := errorShown s; errorText := errorText s;
           PaystackPop := PaystackPop s; channel := channel s;
           autoTriggerPending := autoTriggerPending s; setups := setups s;
           pendingOpen := pendingOpen s; checkoutOpen := checkoutOpen s;
           pendingHide := S (pendingHide s); host := host s |} in
      showError "Loading payment system... Please try again." s1
    else
      showError "Payment system failed to load. Please check your internet connection." s
  else
    let s1 := showLoading (set_paymentInProgress true s) in
    let s2 :=
      {| paymentInProgress := paymentInProgress s1; retryCount := retryCount s1;
         payButtonDisabled := payButtonDisabled s1; loadingShown := loadingShown s1;
         errorShown := errorShown s1; errorText := errorText s1;
         PaystackPop := PaystackPop s1; channel := channel s1;
         autoTriggerPending := autoTriggerPending s1;
         setups := setups s1 ++ [setupConfig p a];
         pendingOpen := pendingOpen s1; checkoutOpen := checkoutOpen s1;
         pendingHide := pendingHide s1; host := host s1 |} in
    match setupError a with
    | None =>
        {| paymentInProgress := paymentInProgress s2; retryCount := retryCount s2;
           payButtonDisabled := payButtonDisabled s2; loadingShown := loadingShown s2;
           errorShown := errorShown s2; errorText := errorText s2;
           PaystackPop := PaystackPop s2; channel := channel s2;
           autoTriggerPending := autoTriggerPending s2; setups := setups s2;
           pendingOpen := S (pendingOpen s2); checkoutOpen := checkoutOpen s2;
           pendingHide := pendingHide s2; host := host s2 |}
    | Some msg =>
        postMessage (MsgError ("Payment setup failed: " ++ msg))
          (showError "Payment setup failed. Please try again."
             (set_paymentInProgress false s2))
    end.

Definition cancelPayment (s : Page) : Page :=
  if paymentInProgress s then s
  else postMessage MsgCancel s.

(** What can happen to a presented page. *)
Inductive Event :=
| ClickPay (a : Attempt)            (* the Pay button *)
| ClickCancel                       (* the Cancel button *)
| AutoTrigger (a : Attempt)         (* the timer set by the load listener *)
| OpenTimer (throws : bool)         (* the timer that calls handler.openIframe *)
| HideErrorTimer
| ProviderCallback (response : string)   (* the provider calls callback *)
| ProviderClose                          (* the provider calls onClose *)
| PageError                         (* the window error listener *)
| WebViewError
| WebViewHttpError
| ContentProcessTerminated.

Definition closeCheckout (s : Page) : Page :=
  {| paymentInProgress := false; retryCount := retryCount s;
     payButtonDisabled := payButtonDisabled s; loadingShown := loadingShown s;
     errorShown := errorShown s; errorText := errorText s;
     PaystackPop := PaystackPop s; channel := channel s;
     autoTriggerPending := autoTriggerPending s; setups := setups s;
     pendingOpen := pendingOpen s; checkoutOpen := pred (checkoutOpen s);
     pendingHide := pendingHide s; host := host s |}.

(** One event.  A click on the disabled Pay button, a timer that is not
    pending and a provider event without an open checkout do not occur. *)
Definition step (p : Props) (s : Page) (e : Event) : Page :=
  match e with
  | ClickPay a =>
      if payButtonDisabled s then s else payWithPaystack p a s
  | ClickCancel => cancelPayment s
  | AutoTrigger a =>
      if autoTriggerPending s then
        let s1 :=
          {| paymentInProgress := paymentInProgress s; retryCount := retryCount s;
             payButtonDisabled := payButtonDisabled s; loadingShown := loadingShown s;
             errorShown := errorShown s; errorText := errorText s;
             PaystackPop := PaystackPop s; channel := channel s;
             autoTriggerPending := false; setups := setups s;
             pendingOpen := pendingOpen s; checkoutOpen := checkoutOpen s;
             pendingHide := pendingHide s; host := host s |} in
        if negb (paymentInProgress s1) && PaystackPop s1
        then payWithPaystack p a s1 else s1
      else s
  | OpenTimer throws =>
      match pendingOpen s with
      | O => s
      | S k =>
          if throws then
            postMessage (MsgError "Failed to open payment window")
              (showError "Failed to open payment window. Please try again."
                 {| paymentInProgress := false; retryCount := retryCount s;
                    payButtonDisabled := payButtonDisabled s;
                    loadingShown := loadingShown s;
                    errorShown := errorShown s; errorText := errorText s;
                    PaystackPop := PaystackPop s; channel := channel s;
                    autoTriggerPending := autoTriggerPending s; setups := setups s;
                    pendingOpen := k; checkoutOpen := checkoutOpen s;
                    pendingHide := pendingHide s; host := host s |})
          else
            {| paymentInProgress := paymentInProgress s; retryCount := retryCount s;
               payButtonDisabled := payButtonDisabled s;
               loadingShown := loadingShown s;
               errorShown := errorShown s; errorText := errorText s;
               PaystackPop := PaystackPop s; channel := channel s;
               autoTriggerPending := autoTriggerPending s; setups := setups s;
               pendingOpen := k; checkoutOpen := S (checkoutOpen s);
               pendingHide := pendingHide s; host := host s |}
      end
  | HideErrorTimer =>
      match pendingHide s with
      | O => s
      | S k =>
          {| paymentInProgress := paymentInProgress s; retryCount := retryCount s;
             payButtonDisabled := payButtonDisabled s; loadingShown := loadingShown s;
             errorShown := false; errorText := errorText s;
             PaystackPop := PaystackPop s; channel := channel s;
             autoTriggerPending := autoTriggerPending s; setups := setups s;
             pendingOpen := pendingOpen s; checkoutOpen := checkoutOpen s;
             pendingHide := k; host := host s |}
      end
  | ProviderCallback response =>
      match checkoutOpen s with
      | O => s
      | S _ => postMessage (MsgSuccess response) (hideLoading (closeCheckout s))
      end
  | ProviderClose =>
      match checkoutOpen s with
      | O => s
      | S _ => postMessage MsgCancel (hideLoading (closeCheckout s))
      end
  | PageError =>
      if paymentInProgress s then s
      else showError "An error occurred. Please try again." s
  | WebViewError | WebViewHttpError | ContentProcessTerminated =>
      deliver OnCancel s
  end.

Definition run (p : Props) (s : Page) (events : list Event) : Page :=
  fold_left (step p) events s.

(** What every reachable page satisfies: the provider only ever received the
    amount in kobo, and the latch is set exactly while one checkout is
    scheduled or open. *)
Definition page_ok (p : Props) (s : Page) : Prop :=
  Forall (fun c => cfg_amount c = Js.numberLiteral (amount p * 100)%float)
    (setups s) /\
  (pendingOpen s + checkoutOpen s)%nat = (if paymentInProgress s then 1 else 0)%nat.

(** The events other than a press on Cancel and a failure of the web view
    itself. *)
Definition page_event (e : Event) : bool :=
  match e with
  | ClickCancel | WebViewError | WebViewHttpError | ContentProcessTerminated => false
  | _ => true
  end.

(** The failures of the web view itself, which the host answers with
    [onCancel] without a message from the page. *)
Definition webview_event (e : Event) : bool :=
  match e with
  | WebViewError | WebViewHttpError | ContentProcessTerminated => true
  | _ => false
  end.

(** The page at rest: no payment in progress, nothing scheduled or open,
    the Pay button enabled. *)
Definition idle (s : Page) : Prop :=
  paymentInProgress s = false /\ payButtonDisabled s = false /\
  loadingShown s = false /\ pendingOpen s = O /\ checkoutOpen s = O.

End PaystackPayment.


(** ** The wallet-history screen *)

Module WalletHistory.

Record Transaction := {
  id : string;
  type : string;
  amount : Z;
  description : string;
  status : string;
  created_at : string }.

Definition totalCredits (transactions : list Transaction) : Z :=
  fold_left (fun sum t => sum + amount t)
    (List.filter (fun t => String.eqb (type t) "credit"
                           && String.eqb (status t) "completed") transactions)
    0.

Definition totalDebits (transactions : list Transaction) : Z :=
  fold_left (fun sum t => sum + amount t)
    (List.filter (fun t => String.eqb (type t) "debit"
                           && String.eqb (status t) "completed") transactions)
    0.

(** The sum of the amounts of the transactions of one type that are
    completed, transaction by transaction: the wording of the property, to be
    compared with the totals above. *)
Fixpoint completed_sum (ty : string) (transactions : list Transaction) : Z :=
  match transactions with
  | [] => 0
  | t :: rest =>
      if String.eqb (type t) ty && String.eqb (status t) "completed"
      then amount t + completed_sum ty rest
      else completed_sum ty rest
  end.

(** *** Fetching and rendering *)

(** What the select on [transactions] resolved to. *)
Record Response := {
  data : option (list Transaction);
  error : option PgError }.

(** The state of the screen. *)
Record Screen := {
  transactions : list Transaction;
  loading : bool;
  refreshing : bool }.

(** The screen as first rendered. *)
Definition initial : Screen :=
  {| transactions := []; loading := true; refreshing := false |}.

Definition setTransactions (l : list Transaction) (s : Screen) : Screen :=
  {| transactions := l; loading := loading s; refreshing := refreshing s |}.

Definition setLoading (b : bool) (s : Screen) : Screen :=
  {| transactions := transactions s; loading := b; refreshing := refreshing s |}.

Definition setRefreshing (b : bool) (s : Screen) : Screen :=
  {| transactions := transactions s; loading := loading s; refreshing := b |}.

(** [fetchTransactions]: nothing without a user; otherwise the list is
    replaced by [data || []] unless the response carries an error, and
    [loading] is cleared in the [finally] block either way.  (The console
    output of the [catch] block is left out.) *)
Definition fetchTransactions (user : option string) (resp : Response) (s : Screen) : Screen :=
  match user with
  | None => s
  | Some _ =>
      setLoading false
        (match error resp with
         | Some _ => s
         | None =>
             setTransactions (match data resp with
                              | Some l => l
                              | None => []
                              end) s
         end)
  end.

Definition onRefresh (user : option string) (resp : Response) (s : Screen) : Screen :=
  setRefreshing false (fetchTransactions user resp (setRefreshing true s)).

(** [getTransactionColor] *)
Definition getTransactionColor (ty : string) : string :=
  if String.eqb ty "credit" then "#10B981" else "#EF4444".

(** The sign [renderTransaction] puts before the amount. *)
Definition amountSign (t : Transaction) : string :=
  if String.eqb (type t) "credit" then "+" else "-".

End WalletHistory.


(** ** The customer home screen *)

Module HomeScreen.

Record Product := {
  id : string;
  name : string;
  price : Z;
  category : string;
  stock : Z;
  total_reviews : option Z }.

Record SpecialOffer := {
  offer_id : string;
  title : string;
  promo_code : string;
  is_active : bool }.

(** The profile of the authentication context. *)
Record Profile := {
  full_name : string;
  wallet_balance : Z;
  preferred_currency : option string }.

Record Screen := {
  products : list Product;
  specialOffers : list SpecialOffer;
  loading : bool;
  alerts : list (string * string) }.

Definition initial : Screen :=
  {| products := []; specialOffers := []; loading := true; alerts := [] |}.

(** What one fetch meets: whether [getSession] finds a session, and what the
    select resolved to. *)
Record Reply (A : Type) := {
  session : bool;
  data : option (list A);
  error : option PgError }.
Arguments session {A} r.
Arguments data {A} r.
Arguments error {A} r.

Definition setProducts (l : list Product) (s : Screen) : Screen :=
  {| products := l; specialOffers := specialOffers s; loading := loading s;
     alerts := alerts s |}.

Definition setSpecialOffers (l : list SpecialOffer) (s : Screen) : Screen :=
  {| products := products s; specialOffers := l; loading := loading s;
     alerts := alerts s |}.

Definition setLoading (b : bool) (s : Screen) : Screen :=
  {| products := products s; specialOffers := specialOffers s; loading := b;
     alerts := alerts s |}.

Definition alert (title body : string) (s : Screen) : Screen :=
  {| products := products s; specialOffers := specialOffers s;
     loading := loading s; alerts := (alerts s ++ [(title, body)])%list |}.

Definition fetchProducts (r : Reply Product) (s : Screen) : Screen :=
  if negb (session r) then setLoading false s
  else
    match error r with
    | Some e =>
        if negb (Js.includes (message e) "Auth session missing")
        then alert "Error" "Failed to load products" s
        else s
    | None => setProducts (match data r with Some l => l | None => [] end) s
    end.

Definition fetchSpecialOffers (r : Reply SpecialOffer) (s : Screen) : Screen :=
  if negb (session r) then s
  else
    match error r with
    | Some _ => s
    | None => setSpecialOffers (match data r with Some l => l | None => [] end) s
    end.

(** The effect run when [profile] changes: both fetches, then [loading] is
    cleared; without a profile [loading] is cleared at once.  The two
    fetches of [Promise.all] are taken one after the other. *)
Definition onProfile (profile : option Profile) (rp : Reply Product)
  (ro : Reply SpecialOffer) (s : Screen) : Screen :=
  match profile with
  | Some _ => setLoading false (fetchSpecialOffers ro (fetchProducts rp s))
  | None => setLoading false s
  end.

(** [specialOffers.length > 0 ? specialOffers[0] : null] *)
Definition currentOffer (s : Screen) : option SpecialOffer :=
  match specialOffers s with
  | o :: _ => Some o
  | [] => None
  end.

Section Currency.

(** [formatCurrency] and [convertFromNGN] of [@/lib/currency], which is not
    among the sources. *)
Variable formatCurrency : Z -> string -> string.
Variable convertFromNGN : Z -> string -> Z.

Definition formatProductPrice (profile : option Profile) (priceInNGN : Z) : string :=
  match profile with
  | Some p =>
      match preferred_currency p with
      | Some cur =>
          if negb (Js.truthy (Some cur)) || String.eqb cur "NGN"
          then formatCurrency priceInNGN "NGN"
          else formatCurrency (convertFromNGN priceInNGN cur) cur
      | None => formatCurrency priceInNGN "NGN"
      end
  | None => formatCurrency priceInNGN "NGN"
  end.

Definition getWalletBalance (profile : option Profile) : string :=
  match profile with
  | None => formatCurrency 0 "NGN"
  | Some p =>
      let currency :=
        match Js.or_else (preferred_currency p) (Some "NGN") with
        | Some c => c
        | None => "NGN"
        end in
      let balance :=
        if String.eqb currency "NGN" then wallet_balance p
        else convertFromNGN (wallet_balance p) currency in
      formatCurrency balance currency
  end.

End Currency.

End HomeScreen.

(** ** Sample data *)

Module Sample.

Import OrderDetailsModal.

(** [parseFloat] on a string of decimal digits. *)
Fixpoint digits (s : string) (acc : Z) : Z :=
  match s with
  | EmptyString => acc
  | String c rest => digits rest (10 * acc + (Z.of_nat (nat_of_ascii c) - 48))
  end.

Definition parseDigits (s : string) : Z := digits s 0.

(** A fixed rate table in the manner of [convertToNGN]. *)
Definition fixedRate (a : Z) (cur : string) : Z :=
  if String.eqb cur "USD" then a * 1500 else a.

Definition ada : ProfileCopy :=
  {| full_name := "Ada"; email := "ada@example.com"; wallet_balance := 2000;
     preferred_currency := None |}.

Definition adaRow : ProfileRow :=
  {| p_full_name := "Ada"; p_email := "ada@example.com";
     p_wallet_balance := 2000; p_preferred_currency := None |}.

Definition paidRow : OrderRow :=
  {| o_user_id := "u1"; o_total := 15000; o_payment_status := "paid";
     o_order_status := "confirmed" |}.

Definition requestRow : CustomRequestRow :=
  {| c_user_id := "u1"; c_title := "Team jerseys"; c_status := "under_review";
     c_invoice_sent := false |}.

Definition shop : Store :=
  {| tbl_profiles := {[ "u1" := adaRow ]};
     tbl_orders := {[ "0123456789abcdef" := paidRow ]};
     tbl_custom_requests := {[ "r1" := requestRow ]};
     tbl_transactions := []; tbl_invoices := []; tbl_notifications := [] |}.

(** A paid standard order of 15,000 fetched with its owner's profile. *)
Definition paidOrder : Order :=
  {| id := "0123456789abcdef"; user_id := "u1"; items := Some [];
     total := 15000; payment_status := Some "paid";
     order_status := Some "confirmed"; currency := None;
     profiles := Some ada; title := None; logo_url := None; status := None;
     invoice_sent := None; invoices := None |}.

(** The same order fetched without the joined profile. *)
Definition paidOrderNoProfile : Order :=
  {| id := "0123456789abcdef"; user_id := "u1"; items := Some [];
     total := 15000; payment_status := Some "paid";
     order_status := Some "confirmed"; currency := None;
     profiles := None; title := None; logo_url := None; status := None;
     invoice_sent := None; invoices := None |}.

(** The same order with a copy of the profile fetched before the owner
    funded the wallet: the copy says 100, the store 2000. *)
Definition paidOrderStaleProfile : Order :=
  {| id := "0123456789abcdef"; user_id := "u1"; items := Some [];
     total := 15000; payment_status := Some "paid";
     order_status := Some "confirmed"; currency := None;
     profiles := Some {| full_name := "Ada"; email := "ada@example.com";
                         wallet_balance := 100; preferred_currency := None |};
     title := None; logo_url := None; status := None;
     invoice_sent := None; invoices := None |}.

(** A custom order paid in USD, no invoice sent yet. *)
Definition customOrder : Order :=
  {| id := "r1"; user_id := "u1"; items := None; total := 0;
     payment_status := None; order_status := None; currency := Some "USD";
     profiles := Some ada; title := Some "Team jerseys"; logo_url := None;
     status := Some "under_review"; invoice_sent := Some false;
     invoices := Some [] |}.

(** The copy of that custom order fetched after its invoice was sent. *)
Definition sentCopy : Order :=
  {| id := "r1"; user_id := "u1"; items := None; total := 0;
     payment_status := None; order_status := None; currency := Some "USD";
     profiles := Some ada; title := Some "Team jerseys"; logo_url := None;
     status := Some "quoted"; invoice_sent := Some true;
     invoices := None |}.

Definition quote : InvoiceData := {| amount := "50000"; description := "Jerseys" |}.

Definition modal (o : Order) (admin : bool) (form : InvoiceData) : Modal :=
  {| order := o; visible := true; isAdmin := admin; updating := false;
     showInvoiceModal := false; invoiceData := form |}.

Definition blank : InvoiceData := {| amount := ""; description := "" |}.

Definition world (s : Store) (fs : list (option PgError)) : World :=
  {| store := s; faults := fs; calls := []; ui := [] |}.

Definition timeout : PgError := {| code := "504"; message := "upstream timeout" |}.

Definition checkout : PaystackPayment.Props :=
  {| PaystackPayment.email := "ada@example.com"; PaystackPayment.amount := 1000%float;
     PaystackPayment.publicKey := "pk_test"; PaystackPayment.customerName := "Ada" |}.

Definition attempt : PaystackPayment.Attempt :=
  {| PaystackPayment.rnd := 42; PaystackPayment.setupError := None |}.

(** The same checkout for another amount. *)
Definition checkoutOf (a : float) : PaystackPayment.Props :=
  {| PaystackPayment.email := "ada@example.com"; PaystackPayment.amount := a;
     PaystackPayment.publicKey := "pk_test"; PaystackPayment.customerName := "Ada" |}.

(** A whole amount below 2^53, and the double nearest to 19.99. *)
Definition wholeAmount : float := 9007199254740989%float.
Definition fractionalAmount : float := 0x1.3fd70a3d70a3dp+4%float.

(** A checkout whose e-mail holds an apostrophe. *)
Definition obrien : PaystackPayment.Props :=
  {| PaystackPayment.email := "o'brien@example.com";
     PaystackPayment.amount := 1000%float;
     PaystackPayment.publicKey := "pk_test"; PaystackPayment.customerName := "Ada" |}.

Definition entry (ty : string) (a : Z) (st : string) : WalletHistory.Transaction :=
  {| WalletHistory.id := "t"; WalletHistory.type := ty;
     WalletHistory.amount := a; WalletHistory.description := "";
     WalletHistory.status := st; WalletHistory.created_at := "2025-01-01" |}.

(** An order in the status confirmed, shown to an admin. *)
Definition shipping : Modal := modal paidOrder true blank.

(** The custom order shown to an admin with the quote typed in. *)
Definition quoting : Modal := modal customOrder true quote.

Definition duplicateElsewhere : PgError :=
  {| code := "23505"; message := "duplicate key value violates unique constraint" |}.

End Sample.


(** * Properties *)

(** ** Calls to the store *)

Lemma supabase_fault (c : Call) (w : World) (e : PgError) :
  next_fault w = Some e ->
  supabase c w =
    (Returned (Some e),
     {| store := store w; faults := tl (faults w); calls := calls w ++ [c];
        ui := ui w |}).
Proof. intros H. unfold supabase. now rewrite H. Qed.

Lemma supabase_reached (c : Call) (w : World) :
  next_fault w = None ->
  supabase c w =
    (Returned (fst (exec c (store w))),
     {| store := snd (exec c (store w)); faults := tl (faults w);
        calls := calls w ++ [c]; ui := ui w |}).
Proof.
  intros H. unfold supabase. rewrite H. now destruct (exec c (store w)).
Qed.

Lemma accepts_next (k : nat) (w : World) :
  accepts (S k) (faults w) = true ->
  next_fault w = None /\ accepts k (tl (faults w)) = true.
Proof.
  unfold next_fault. destruct (faults w) as [|[e|] rest]; simpl; intros H.
  - split; [reflexivity | now destruct k].
  - discriminate.
  - now split.
Qed.

Section ModalProperties.

Import OrderDetailsModal.

Lemma cancel_triggers_refund (o : Order) :
  isCustomOrder o = false ->
  payment_status o = Some "paid" ->
  String.eqb "cancelled" "cancelled" && negb (isCustomOrder o)
    && equals (payment_status o) "paid" = true.
Proof. intros -> ->. reflexivity. Qed.

(** C9.  A paid standard order fetched without its [profiles] record is
    cancelled: [handleRefund] returns at once without raising and without a
    call, so the update issues no refund call, leaves the profiles and the
    transactions as they were and changes no stored [payment_status]; when
    the store is reached, the status write sets [order_status] of the row to
    cancelled. *)
Theorem cancel_without_fetched_profile (m : Modal) (w : World) :
  isCustomOrder (order m) = false ->
  payment_status (order m) = Some "paid" ->
  profiles (order m) = None ->
  let w' := snd (handleStatusUpdate m "cancelled" w) in
  handleRefund m (begin_update w) = (Returned tt, begin_update w) /\
  tbl_profiles (store w') = tbl_profiles (store w) /\
  tbl_transactions (store w') = tbl_transactions (store w) /\
  (exists later, calls w' = (calls w ++ later)%list /\
                 forallb (fun c => negb (is_refund_call c)) later = true) /\
  (forall k, o_payment_status <$> (tbl_orders (store w') !! k)
             = o_payment_status <$> (tbl_orders (store w) !! k)) /\
  (next_fault w = None ->
   tbl_orders (store w')
   = alter (set_order_status "cancelled") (id (order m)) (tbl_orders (store w))).
Proof.
  intros Hstd Hpaid Hprof w'.
  assert (Hrefund : forall v, handleRefund m v = (Returned tt, v)).
  { intros v. unfold handleRefund. now rewrite Hprof. }
  split; [apply Hrefund|].
  subst w'. unfold handleStatusUpdate, finally, try_catch, bind.
  rewrite (cancel_triggers_refund _ Hstd Hpaid).
  cbn [effect]. rewrite Hrefund.
  unfold statusWrite. rewrite Hstd.
  destruct w as [s fs cs u].
  destruct fs as [|[e|] fs]; [ | | destruct fs as [|[e|] fs]]; cbn.
  all: repeat split; try reflexivity; try discriminate.
  all: try (eexists; rewrite <- ?app_assoc; split; reflexivity).
  all: intros k; rewrite lookup_alter; case_decide; [subst|reflexivity].
  all: now destruct (tbl_orders s !! _).
Qed.


Ltac split_world w := destruct w as [?s ?fs ?cs ?u]; cbn in *.

Ltac faults_case :=
  match goal with
  | |- context [supabase _ {| store := _; faults := ?fs; calls := _; ui := _ |}] =>
      is_var fs; destruct fs as [|[?e|] ?fs]; cbn in *
  end.

(** C1, as amended.  Cancelling a paid standard order whose fetched
    [profiles] record is present: the refund is applied before the status
    write.  The first call issued is the credit of the owner's wallet; the
    calls of [handleRefund] come first and only calls that are not refund
    calls follow them; when [handleRefund] returns, its three calls (wallet,
    credit transaction, [payment_status] refunded) have been issued and the
    status write comes directly after them; when the store accepts the four
    calls, the wallet is written, the credit transaction is stored and the
    order is refunded and cancelled.  When [handleRefund] raises, nothing is
    issued after its calls: no status write, the orders table and the
    notifications are as before, and the failure is surfaced by the error
    alert. *)
Theorem cancel_paid_refund_first (m : Modal) (p : ProfileCopy) (w : World) :
  isCustomOrder (order m) = false ->
  payment_status (order m) = Some "paid" ->
  profiles (order m) = Some p ->
  let o := order m in
  let refund := handleRefund m (begin_update w) in
  let w' := snd (handleStatusUpdate m "cancelled" w) in
  (exists later, calls w' = (calls w ++ creditWallet o p :: later)%list) /\
  (exists refund_calls later,
      calls (snd refund) = (calls w ++ refund_calls)%list /\
      calls w' = (calls w ++ refund_calls ++ later)%list /\
      forallb is_refund_call refund_calls = true /\
      forallb (fun c => negb (is_refund_call c)) later = true) /\
  (fst refund = Returned tt ->
   calls (snd refund)
   = (calls w ++ [creditWallet o p; InsertTransaction (refundEntry o);
                  markRefunded o])%list /\
   exists later,
     calls w' = (calls (snd refund)
                 ++ UpdateOrderStatus (id o) "cancelled" :: later)%list) /\
  (accepts 4 (faults w) = true ->
   fst refund = Returned tt /\
   tbl_profiles (store w')
   = alter (set_wallet (wallet_balance p + total o)) (user_id o)
       (tbl_profiles (store w)) /\
   tbl_transactions (store w')
   = (tbl_transactions (store w) ++ [refundEntry o])%list /\
   tbl_orders (store w')
   = alter (set_order_status "cancelled") (id o)
       (alter (set_payment_status "refunded") (id o) (tbl_orders (store w)))) /\
  (forall e, fst refund = Thrown e ->
     calls w' = calls (snd refund) /\
     forallb (fun c => negb (is_status_write c)) (calls w') =
       forallb (fun c => negb (is_status_write c)) (calls w) /\
     tbl_orders (store w') = tbl_orders (store w) /\
     tbl_notifications (store w') = tbl_notifications (store w) /\
     ui w' = (ui w ++ [SetUpdating true; ConsoleError "Error processing refund:";
                       ConsoleError "Error updating status:";
                       Alert "Error" "Failed to update order status";
                       SetUpdating false])%list).
Proof.
  intros Hstd Hpaid Hprof o refund w'. subst o refund w'.
  unfold handleStatusUpdate, begin_update.
  rewrite (cancel_triggers_refund _ Hstd Hpaid).
  unfold handleRefund, statusWrite, creditWallet, refundEntry, markRefunded.
  rewrite Hstd, Hprof.
  split_world w; unfold finally, try_catch, bind; cbn; repeat faults_case;
    rewrite <- ?app_assoc; cbn [app].
  all: split; [eexists; reflexivity|].
  all: split; [ | split; [ | split ] ].
  all: try (intros [=]; fail).
  all: try (intros ? [=]; fail).
  all: try (intros _; split; [reflexivity|];
            eexists; rewrite <- ?app_assoc; cbn [app]; reflexivity).
  all: try (eexists _, _;
            split; [reflexivity | split; [reflexivity | split; reflexivity]]).
  all: try (intros _; repeat split; reflexivity).
  all: intros e' _; repeat split; rewrite ?forallb_app; cbn;
       now rewrite ?andb_true_r.
Qed.

(** C3, as amended.  With the fetched [profiles] record present, the refund
    issues three calls in this order: (1) write the owner's wallet balance
    as the fetched balance plus the order total, which is the stored balance
    increased by the total when the fetched balance is the stored one, (2)
    insert one completed credit transaction of the order total that
    references the order, (3) set the order's [payment_status] to refunded.
    When call 1 or call 2 fails the refund raises that error and call 3 is
    never issued; a failure of call 2 leaves the wallet written. *)
Theorem refund_three_steps (m : Modal) (p : ProfileCopy) (w : World) :
  profiles (order m) = Some p ->
  let o := order m in
  let r := handleRefund m w in
  (accepts 3 (faults w) = true ->
     fst r = Returned tt /\
     calls (snd r)
     = (calls w ++ [creditWallet o p; InsertTransaction (refundEntry o);
                    markRefunded o])%list /\
     tbl_profiles (store (snd r))
     = alter (set_wallet (wallet_balance p + total o)) (user_id o)
         (tbl_profiles (store w)) /\
     (forall row, tbl_profiles (store w) !! user_id o = Some row ->
                  p_wallet_balance row = wallet_balance p ->
                  p_wallet_balance <$> (tbl_profiles (store (snd r)) !! user_id o)
                  = Some (p_wallet_balance row + total o)) /\
     tbl_transactions (store (snd r))
     = (tbl_transactions (store w) ++ [refundEntry o])%list /\
     tbl_orders (store (snd r))
     = alter (set_payment_status "refunded") (id o) (tbl_orders (store w)) /\
     (forall row, tbl_orders (store w) !! id o = Some row ->
                  o_payment_status <$> (tbl_orders (store (snd r)) !! id o)
                  = Some "refunded")) /\
  (forall e, fault_at 0 (faults w) = Some e ->
     fst r = Thrown e /\
     calls (snd r) = (calls w ++ [creditWallet o p])%list /\
     store (snd r) = store w) /\
  (forall e, fault_at 0 (faults w) = None -> fault_at 1 (faults w) = Some e ->
     fst r = Thrown e /\
     calls (snd r)
     = (calls w ++ [creditWallet o p; InsertTransaction (refundEntry o)])%list /\
     tbl_profiles (store (snd r))
     = alter (set_wallet (wallet_balance p + total o)) (user_id o)
         (tbl_profiles (store w)) /\
     tbl_transactions (store (snd r)) = tbl_transactions (store w) /\
     tbl_orders (store (snd r)) = tbl_orders (store w)).
Proof.
  intros Hp o r. subst o r. unfold handleRefund. rewrite Hp.
  unfold creditWallet, markRefunded, refundEntry, fault_at.
  split_world w. unfold try_catch, bind; cbn. repeat faults_case.
  all: rewrite <- ?app_assoc; cbn [app].
  all: split; [ intros Hacc; try discriminate
              | split; [ intros e' He; try discriminate
                       | intros e' He0 He; try discriminate ] ].
  all: try (injection He as <-).
  all: repeat split; try reflexivity.
  all: try (intros row Hrow Hbal; rewrite lookup_alter, decide_True by reflexivity;
            rewrite Hrow; cbn; now rewrite Hbal).
  all: try (intros row Hrow; rewrite lookup_alter, decide_True by reflexivity;
            now rewrite Hrow).
Qed.

Section Invoices.

Variable parseFloat : string -> Z.
Variable convertToNGN : Z -> string -> Z.

Arguments invoices_of : simpl never.

Lemma invoices_of_app (request : string) (s : Store) (i : InvoiceRow) :
  invoices_of request (with_invoices s (tbl_invoices s ++ [i]))
  = (invoices_of request s
     ++ (if String.eqb (i_custom_request_id i) request then [i] else []))%list.
Proof. unfold invoices_of. cbn. now rewrite List.filter_app. Qed.

Lemma truthy_flag (b : option bool) :
  b <> Some true -> match b with Some v => v | None => false end = false.
Proof. destruct b as [[|]|]; congruence. Qed.

Lemma no_fetched_invoice (l : option (list Invoice)) :
  l = None \/ l = Some [] ->
  match l with Some (_ :: _) => true | _ => false end = false.
Proof. now intros [-> | ->]. Qed.

Lemma form_filled (d : InvoiceData) :
  amount d <> "" -> description d <> "" ->
  String.eqb (amount d) "" || String.eqb (description d) "" = false.
Proof.
  intros Ha Hd. apply String.eqb_neq in Ha, Hd. now rewrite Ha, Hd.
Qed.

(** Whatever the fetched copy says and whatever the transport does, a send
    on a request that already has an invoice stores no further invoice. *)
Lemma send_keeps_invoices (m : Modal) (w : World) :
  invoices_of (id (order m)) (store w) <> [] ->
  tbl_invoices (store (snd (handleSendInvoice parseFloat convertToNGN m w)))
  = tbl_invoices (store w).
Proof.
  intros Hdup. unfold handleSendInvoice.
  repeat match goal with |- context [if ?b then _ else _] =>
    lazymatch b with
    | String.eqb (actualPaymentCurrency _) _ => fail
    | _ => destruct b; [reflexivity|]
    end end.
  split_world w. unfold try_catch, bind. faults_case.
  - destruct (invoices_of _ s) eqn:Hi; [contradiction|]. cbn. reflexivity.
  - destruct (_ && _); reflexivity.
  - destruct (invoices_of _ s) eqn:Hi; [contradiction|]. cbn. reflexivity.
Qed.

(** C5.  A send on a custom order with no invoice yet, with the form filled
    and the store reached: exactly one invoice is appended, whose
    [original_amount] is the amount typed, whose [currency] is the payment
    currency and whose [amount] is that amount converted to NGN (the amount
    itself when the payment currency is NGN); for 50,000 typed on a USD order
    these are 50,000, USD and [convertToNGN 50000 "USD"].  The request row
    becomes quoted with [invoice_sent] set, one notification to the owner is
    appended, and the success alert is shown. *)
Theorem send_invoice_success (m : Modal) (w : World) (row : CustomRequestRow) :
  isCustomOrder (order m) = true ->
  amount (invoiceData m) <> "" ->
  description (invoiceData m) <> "" ->
  invoice_sent (order m) <> Some true ->
  invoices (order m) = None \/ invoices (order m) = Some [] ->
  invoices_of (id (order m)) (store w) = [] ->
  tbl_custom_requests (store w) !! id (order m) = Some row ->
  accepts 3 (faults w) = true ->
  let o := order m in
  let w' := snd (handleSendInvoice parseFloat convertToNGN m w) in
  tbl_invoices (store w') = (tbl_invoices (store w) ++ [builtInvoice parseFloat convertToNGN m])%list /\
  i_original_amount (builtInvoice parseFloat convertToNGN m) = parseFloat (amount (invoiceData m)) /\
  i_currency (builtInvoice parseFloat convertToNGN m) = actualPaymentCurrency o /\
  (actualPaymentCurrency o <> "NGN" ->
   i_amount (builtInvoice parseFloat convertToNGN m)
   = convertToNGN (parseFloat (amount (invoiceData m))) (actualPaymentCurrency o)) /\
  (actualPaymentCurrency o = "NGN" ->
   i_amount (builtInvoice parseFloat convertToNGN m) = parseFloat (amount (invoiceData m))) /\
  (parseFloat (amount (invoiceData m)) = 50000 -> currency o = Some "USD" ->
   i_original_amount (builtInvoice parseFloat convertToNGN m) = 50000 /\
   i_currency (builtInvoice parseFloat convertToNGN m) = "USD" /\
   i_amount (builtInvoice parseFloat convertToNGN m) = convertToNGN 50000 "USD") /\
  (exists row', tbl_custom_requests (store w') !! id o = Some row' /\
                c_status row' = "quoted" /\ c_invoice_sent row' = true) /\
  (exists n, tbl_notifications (store w') = (tbl_notifications (store w) ++ [n])%list
             /\ n_user_id n = user_id o) /\
  ui w' = (ui w ++ [Alert "Success"
                      ("Invoice sent successfully in " ++ actualPaymentCurrency o);
                    SetShowInvoiceModal false; ResetInvoiceData; OnOrderUpdate])%list.
Proof.
  intros Hcustom Ha Hd Hsent Hinv Hnone Hrow Hacc o w'. subst o w'.
  unfold handleSendInvoice.
  rewrite (form_filled _ Ha Hd), (truthy_flag _ Hsent), (no_fetched_invoice _ Hinv).
  fold (builtInvoice parseFloat convertToNGN m).
  split_world w. unfold try_catch, bind.
  split; [|split; [reflexivity|split; [reflexivity|split; [|split; [|split]]]]].
  - repeat (faults_case; rewrite ?Hnone; cbn); try discriminate; reflexivity.
  - intros Hcur. unfold builtInvoice. cbn.
    apply String.eqb_neq in Hcur. now rewrite Hcur.
  - intros Hcur. unfold builtInvoice. cbn. now rewrite Hcur.
  - intros H50 Husd. unfold builtInvoice, actualPaymentCurrency,
      getActualPaymentCurrency. cbn. rewrite Hcustom, Husd, H50. now cbn.
  - repeat (faults_case; rewrite ?Hnone; cbn); try discriminate.
    all: split; [exists (set_custom "quoted" true row);
                 rewrite lookup_alter, decide_True by reflexivity;
                 now rewrite Hrow|].
    all: split; [eexists; split; reflexivity|].
    all: now rewrite <- ?app_assoc.
Qed.

(** C2.  Two sends on the same custom order, the first one on a request
    without invoice and with its insert accepted: after the first there is
    exactly one invoice for the request, the second stores none (whatever
    copy of the order it holds and whatever the transport does), and the
    second ends in one of the two already-sent alerts, be it stopped by the
    flag, by the fetched invoice list, or by the uniqueness violation that
    the store (or the transport) reports.  Which of the three stops it is
    fixed by the copy the second send holds: with [invoice_sent] set it
    shows Invoice Already Sent and issues no call; else with a fetched
    invoice it shows Invoice Already Exists and issues no call, neither of
    them touching the transport; else it issues the insert, and the
    uniqueness violation that answers it is turned into the already-sent
    message and not into the generic failure. *)
Theorem send_invoice_twice (m1 m2 : Modal) (w : World) :
  id (order m2) = id (order m1) ->
  amount (invoiceData m1) <> "" ->
  description (invoiceData m1) <> "" ->
  invoice_sent (order m1) <> Some true ->
  invoices (order m1) = None \/ invoices (order m1) = Some [] ->
  invoices_of (id (order m1)) (store w) = [] ->
  accepts 1 (faults w) = true ->
  amount (invoiceData m2) <> "" ->
  description (invoiceData m2) <> "" ->
  let w1 := snd (handleSendInvoice parseFloat convertToNGN m1 w) in
  let w2 := snd (handleSendInvoice parseFloat convertToNGN m2 w1) in
  invoices_of (id (order m1)) (store w1) = [builtInvoice parseFloat convertToNGN m1] /\
  tbl_invoices (store w2) = tbl_invoices (store w1) /\
  invoices_of (id (order m1)) (store w2) = [builtInvoice parseFloat convertToNGN m1] /\
  (next_fault w1 = None ->
   exists t body, ui w2 = (ui w1 ++ [Alert t body])%list /\
                  already_sent_title t = true) /\
  (forall e, next_fault w1 = Some e ->
     code e = "23505" ->
     Js.includes (message e) "unique_invoice_per_custom_request" = true ->
     exists t body, ui w2 = (ui w1 ++ [Alert t body])%list /\
                    already_sent_title t = true) /\
  (invoice_sent (order m2) = Some true ->
   calls w2 = calls w1 /\ faults w2 = faults w1 /\ store w2 = store w1 /\
   ui w2 = (ui w1 ++ [Alert "Invoice Already Sent" alreadySentBody])%list) /\
  (invoice_sent (order m2) <> Some true ->
   forall i l, invoices (order m2) = Some (i :: l) ->
   calls w2 = calls w1 /\ faults w2 = faults w1 /\ store w2 = store w1 /\
   ui w2 = (ui w1 ++ [Alert "Invoice Already Exists"
                        "An invoice already exists for this custom order."])%list) /\
  (invoice_sent (order m2) <> Some true ->
   invoices (order m2) = None \/ invoices (order m2) = Some [] ->
   calls w2
   = (calls w1 ++ [InsertInvoice (builtInvoice parseFloat convertToNGN m2)])%list /\
   (next_fault w1 = None ->
    store w2 = store w1 /\
    ui w2 = (ui w1 ++ [Alert "Invoice Already Exists" alreadySentBody])%list) /\
   (forall e, next_fault w1 = Some e ->
      code e = "23505" ->
      Js.includes (message e) "unique_invoice_per_custom_request" = true ->
      store w2 = store w1 /\
      ui w2 = (ui w1 ++ [Alert "Invoice Already Exists" alreadySentBody])%list)).
Proof.
  intros Hid Ha1 Hd1 Hsent1 Hinv1 Hnone Hacc Ha2 Hd2 w1 w2.
  assert (H1 : invoices_of (id (order m1)) (store w1) = [builtInvoice parseFloat convertToNGN m1]).
  { subst w1. unfold handleSendInvoice.
    rewrite (form_filled _ Ha1 Hd1), (truthy_flag _ Hsent1),
      (no_fetched_invoice _ Hinv1).
    fold (builtInvoice parseFloat convertToNGN m1).
    split_world w. unfold try_catch, bind.
    repeat (faults_case; rewrite ?Hnone; cbn); try discriminate.
    all: change (invoices_of (id (order m1))
                   (with_invoices s (tbl_invoices s ++ [builtInvoice parseFloat convertToNGN m1]))
                 = [builtInvoice parseFloat convertToNGN m1]).
    all: rewrite invoices_of_app, Hnone; cbn; now rewrite String.eqb_refl. }
  assert (Hdup : invoices_of (id (order m2)) (store w1) <> []).
  { rewrite Hid, H1. discriminate. }
  assert (H2 : tbl_invoices (store w2) = tbl_invoices (store w1)).
  { subst w2. now apply send_keeps_invoices. }
  split; [exact H1|]. split; [exact H2|].
  split; [unfold invoices_of in *; now rewrite H2|].
  subst w2. generalize dependent w1. intros w1 H1 Hdup _.
  unfold handleSendInvoice. rewrite (form_filled _ Ha2 Hd2).
  fold (builtInvoice parseFloat convertToNGN m2).
  destruct (invoice_sent (order m2)) as [[|]|] eqn:Hs2.
  all: try (destruct (invoices (order m2)) as [[|i2 l2]|] eqn:Hi2).
  all: try (split_world w1; unfold try_catch, bind;
            destruct (invoices_of (id (order m2)) s) eqn:Hi; [contradiction|];
            faults_case; rewrite ?Hi; cbn;
            try match goal with
                | |- context [if (String.eqb (code ?e) _ && ?b) then _ else _] =>
                    is_var e;
                    destruct (String.eqb (code e) "23505" && b) eqn:Hrec; cbn
                end).
  all: repeat match goal with |- _ /\ _ => split end.
  all: try (intros; congruence).
  all: try (intros; eexists _, _; split; reflexivity).
  all: try (intros; repeat split; reflexivity).
  all: try (intros; match goal with H : _ \/ _ |- _ => destruct H; congruence end).
  all: try (intros ? [= <-] Hc Hm; rewrite Hc, Hm in Hrec; discriminate).
  all: intros _ _; repeat split; try reflexivity; try (intros; congruence).
  all: match goal with
       | Hf : Some ?e = Some ?e0, Hc : code ?e0 = _, Hm : Js.includes _ _ = true |- _ =>
           injection Hf as <-; rewrite Hc, Hm in Hrec; discriminate
       end.
Qed.

(** C4.  For an actor who is not an admin the status update and the sending
    of an invoice are refused without any record changing: the role is
    tested where the controls are rendered, before any handler runs, so none
    of the controls that invoke [handleStatusUpdate] or [handleSendInvoice]
    is on screen (status options, send-invoice button, invoice modal), and
    whatever is pressed the store is unchanged and no call is issued. *)
Theorem non_admin_reaches_no_handler (m : Modal) (w : World) (p : Press) :
  isAdmin m = false ->
  (forall s, pressable m (PressStatusOption s) = false) /\
  pressable m PressSendInvoiceButton = false /\
  pressable m PressInvoiceModalSend = false /\
  store (snd (press parseFloat convertToNGN m p w)) = store w /\
  calls (snd (press parseFloat convertToNGN m p w)) = calls w.
Proof.
  intros Hna.
  assert (Hs : forall s, pressable m (PressStatusOption s) = false).
  { intros s. unfold pressable. rewrite Hna. now rewrite andb_false_r. }
  assert (Hb : pressable m PressSendInvoiceButton = false).
  { unfold pressable, canSendInvoice. rewrite Hna. cbn. apply andb_false_r. }
  assert (Hi : pressable m PressInvoiceModalSend = false).
  { unfold pressable. now rewrite Hna. }
  assert (Hc : pressable m PressInvoiceModalCancel = false).
  { unfold pressable. now rewrite Hna. }
  repeat split; try assumption.
  all: unfold press; destruct p; rewrite ?Hs, ?Hb, ?Hi, ?Hc; try reflexivity.
  all: match goal with
       | |- context [if ?b then _ else _] => destruct b; reflexivity
       end.
Qed.

End Invoices.

End ModalProperties.

Section BridgeProperties.

Import PaystackPayment.

Variable p : Props.

Lemma present_ok (loaded : bool) (ch : Channel) : page_ok p (present loaded ch).
Proof. split; [constructor | reflexivity]. Qed.

Lemma postMessage_ok (msg : Message) (s : Page) :
  page_ok p s -> page_ok p (postMessage msg s).
Proof. unfold postMessage. now destruct (channel s). Qed.

Lemma payWithPaystack_ok (a : Attempt) (s : Page) :
  page_ok p s -> page_ok p (payWithPaystack p a s).
Proof.
  intros Hok. unfold payWithPaystack.
  destruct (paymentInProgress s) eqn:Hp; [exact Hok|].
  destruct Hok as [Hs Hl]. rewrite Hp in Hl.
  destruct (PaystackPop s); cbn.
  - destruct (setupError a); [apply postMessage_ok|]; (split; cbn;
      [apply Forall_app; split; [exact Hs | now repeat constructor] | lia]).
  - match goal with |- context [if ?b then _ else _] => destruct b end;
      split; cbn; try assumption; now rewrite ?Hp.
Qed.

Lemma step_ok (s : Page) (e : Event) : page_ok p s -> page_ok p (step p s e).
Proof.
  intros Hok. destruct e; cbn.
  - destruct (payButtonDisabled s); [exact Hok | now apply payWithPaystack_ok].
  - unfold cancelPayment. destruct (paymentInProgress s);
      [exact Hok | now apply postMessage_ok].
  - destruct (autoTriggerPending s); [|exact Hok]. cbn.
    destruct (negb (paymentInProgress s) && PaystackPop s).
    + apply payWithPaystack_ok. exact Hok.
    + exact Hok.
  - destruct (pendingOpen s) as [|k] eqn:Hk; [exact Hok|].
    destruct Hok as [Hs Hl]. rewrite Hk in Hl.
    destruct (paymentInProgress s); [|cbn in Hl; lia].
    destruct throws; [apply postMessage_ok|]; split; cbn; try assumption;
      cbn in Hl; lia.
  - destruct (pendingHide s); [exact Hok|]. exact Hok.
  - destruct (checkoutOpen s) as [|k] eqn:Hk; [exact Hok|].
    destruct Hok as [Hs Hl]. rewrite Hk in Hl.
    destruct (paymentInProgress s); [|lia].
    apply postMessage_ok. split; cbn; [assumption | rewrite Hk; cbn; lia].
  - destruct (checkoutOpen s) as [|k] eqn:Hk; [exact Hok|].
    destruct Hok as [Hs Hl]. rewrite Hk in Hl.
    destruct (paymentInProgress s); [|lia].
    apply postMessage_ok. split; cbn; [assumption | rewrite Hk; cbn; lia].
  - destruct (paymentInProgress s) eqn:Hp; [exact Hok|].
    destruct Hok as [Hs Hl]. split; cbn; [assumption | now rewrite Hp in *].
  - exact Hok.
  - exact Hok.
  - exact Hok.
Qed.

Lemma run_cons (s : Page) (e : Event) (events : list Event) :
  run p s (e :: events) = run p (step p s e) events.
Proof. reflexivity. Qed.

Lemma run_ok (events : list Event) (s : Page) :
  page_ok p s -> page_ok p (run p s events).
Proof.
  revert s. induction events as [|e events IH]; intros s Hok; [exact Hok|].
  rewrite run_cons. apply IH. now apply step_ok.
Qed.

Lemma postMessage_channel (msg : Message) (s : Page) :
  channel (postMessage msg s) = channel s.
Proof. unfold postMessage. now destruct (channel s) eqn:Hc. Qed.

Lemma payWithPaystack_channel (a : Attempt) (s : Page) :
  channel (payWithPaystack p a s) = channel s.
Proof.
  unfold payWithPaystack.
  destruct (paymentInProgress s); [reflexivity|].
  destruct (negb (PaystackPop s)).
  - now destruct (retryCount s <? maxRetries)%nat.
  - destruct (setupError a); [|reflexivity]. now rewrite postMessage_channel.
Qed.

Lemma step_channel (s : Page) (e : Event) : channel (step p s e) = channel s.
Proof.
  destruct e; cbn [step]; try reflexivity.
  - destruct (payButtonDisabled s); [reflexivity | apply payWithPaystack_channel].
  - unfold cancelPayment. destruct (paymentInProgress s);
      [reflexivity | apply postMessage_channel].
  - destruct (autoTriggerPending s); [|reflexivity].
    match goal with |- context [if ?b then _ else _] => destruct b end;
      [now rewrite payWithPaystack_channel | reflexivity].
  - destruct (pendingOpen s); [reflexivity|].
    destruct throws; [now rewrite postMessage_channel | reflexivity].
  - now destruct (pendingHide s).
  - destruct (checkoutOpen s); [reflexivity | now rewrite postMessage_channel].
  - destruct (checkoutOpen s); [reflexivity | now rewrite postMessage_channel].
  - now destruct (paymentInProgress s).
Qed.


Lemma literal_plain (q : ascii) (s : string) :
  Js.breaks_literal q = true -> Js.plain s = true -> Js.literal q s = s.
Proof.
  intros Hq. induction s as [|c s IH]; [reflexivity|]. cbn [Js.plain Js.literal].
  intros [Hc Hs]%andb_prop. destruct (Ascii.eqb c q) eqn:E.
  - apply Ascii.eqb_eq in E. subst c. now rewrite Hq in Hc.
  - now rewrite IH.
Qed.

Lemma spliced_as_given (a : Attempt) :
  spliceable p = true ->
  cfg_key (setupConfig p a) = publicKey p /\
  cfg_email (setupConfig p a) = email p /\
  cfg_customer_name (setupConfig p a) = customerName p.
Proof.
  unfold spliceable. intros [[Hk He]%andb_prop Hn]%andb_prop. cbn.
  now rewrite !literal_plain.
Qed.

(** C8, as amended.  For props that are spliceable, [amountInKobo] is the
    product of the amount and 100 as doubles multiply; every configuration
    the provider receives in any run carries exactly that double; a first
    press on Pay hands the provider one configuration, with that amount in
    currency NGN and the key, the e-mail and the customer name of the props;
    and for an amount of 1000 the provider receives 100000. *)
Theorem provider_receives_kobo (loaded : bool) (ch : Channel) (events : list Event) :
  spliceable p = true ->
  amountInKobo p = (amount p * 100)%float /\
  Forall (fun c => cfg_amount c = Js.numberLiteral (amount p * 100)%float)
    (setups (run p (present loaded ch) events)) /\
  (forall a, setupError a = None ->
     setups (run p (present true ch) [ClickPay a])
     = [{| cfg_key := publicKey p; cfg_email := email p;
           cfg_amount := Js.numberLiteral (amount p * 100)%float;
           cfg_currency := "NGN"; cfg_ref := rnd a;
           cfg_customer_name := customerName p |}]) /\
  (amount p = 1000%float ->
   forall a, setupError a = None ->
     List.map cfg_amount (setups (run p (present true ch) [ClickPay a]))
     = [100000%float]).
Proof.
  intros Hp. split; [reflexivity|]. split; [|split].
  - apply (run_ok events (present loaded ch)), present_ok.
  - intros a Ha. destruct (spliced_as_given a Hp) as (Hk & He & Hn).
    cbn in Hk, He, Hn. cbn. unfold payWithPaystack. cbn. rewrite Ha. cbn.
    unfold setupConfig. now rewrite Hk, He, Hn.
  - intros H1000 a Ha. cbn. unfold payWithPaystack. cbn. rewrite Ha. cbn.
    unfold amountInKobo. rewrite H1000. reflexivity.
Qed.


Lemma unloaded_page_stays_silent (events : list Event) (s : Page) :
  forallb page_event events = true ->
  PaystackPop s = false -> paymentInProgress s = false ->
  pendingOpen s = O -> checkoutOpen s = O -> host s = [] ->
  host (run p s events) = [].
Proof.
  revert s. induction events as [|e events IH];
    intros s Hev Hpop Hpip Hpo Hco Hh; [exact Hh|].
  cbn [forallb] in Hev. apply andb_prop in Hev as [He Hev].
  rewrite run_cons. destruct e; try discriminate He; cbn [step];
    unfold payWithPaystack; rewrite ?Hpip, ?Hpop, ?Hpo, ?Hco; cbn [negb andb];
    try (apply IH; assumption).
  - destruct (payButtonDisabled s); [now apply IH|].
    destruct (retryCount s <? maxRetries)%nat; now apply IH.
  - destruct (autoTriggerPending s); now apply IH.
  - destruct (pendingHide s); now apply IH.
Qed.

(** C7, on the code.  With the provider script not loaded, however often
    Pay is pressed the host receives no outcome: the retry counter stops at
    3, from the fourth press on the page shows the failure text, and nothing
    is posted.  No event of the page other than a press on Cancel or a
    failure of the web view delivers anything. *)
Theorem load_failure_delivers_no_outcome (ch : Channel) (attempts : list Attempt) :
  let s := run p (present false ch) (List.map ClickPay attempts) in
  host s = [] /\
  setups s = [] /\
  retryCount s = Nat.min (length attempts) maxRetries /\
  ((maxRetries < length attempts)%nat ->
   errorShown s = true /\
   errorText s
   = "Payment system failed to load. Please check your internet connection.") /\
  (forall events, forallb page_event events = true ->
                  host (run p (present false ch) events) = []).
Proof.
  assert (H : forall attempts s0,
    PaystackPop s0 = false -> paymentInProgress s0 = false ->
    payButtonDisabled s0 = false -> (retryCount s0 <= maxRetries)%nat ->
    let s := run p s0 (List.map ClickPay attempts) in
    host s = host s0 /\ setups s = setups s0 /\
    retryCount s = Nat.min (retryCount s0 + length attempts) maxRetries /\
    ((maxRetries < retryCount s0 + length attempts)%nat -> attempts <> [] ->
     errorShown s = true /\
     errorText s
     = "Payment system failed to load. Please check your internet connection.")).
  { clear. unfold maxRetries.
    induction attempts as [|a attempts IH]; intros s0 Hpop Hpip Hbtn Hrc.
    - cbn. split; [reflexivity|]. split; [reflexivity|]. split; [lia|].
      intros _ Hne. congruence.
    - cbn [List.map length]. rewrite run_cons. cbn [step].
      unfold payWithPaystack. rewrite Hbtn, Hpip, Hpop. cbn.
      destruct (retryCount s0 <=? 2)%nat eqn:Hlt.
      + apply Nat.leb_le in Hlt.
        match goal with |- context [run p ?s1 _] =>
          destruct (IH s1 eq_refl eq_refl eq_refl) as (Hh & Hs & Hr & Ht);
            [cbn; lia|]
        end.
        cbn in Hh, Hs, Hr, Ht.
        split; [exact Hh|]. split; [exact Hs|]. split; [rewrite Hr; lia|].
        intros Hgt _. destruct attempts as [|a' attempts]; [cbn in Hgt; lia|].
        apply Ht; [cbn in *; lia | discriminate].
      + apply Nat.leb_gt in Hlt.
        match goal with |- context [run p ?s1 _] =>
          destruct (IH s1 Hpop Hpip eq_refl) as (Hh & Hs & Hr & Ht);
            [cbn; lia|]
        end.
        cbn in Hh, Hs, Hr, Ht.
        split; [exact Hh|]. split; [exact Hs|]. split; [rewrite Hr; lia|].
        intros Hgt _. destruct attempts as [|a' attempts]; [now cbn|].
        apply Ht; [cbn in *; lia | discriminate]. }
  intros s. subst s.
  destruct (H attempts (present false ch)) as (Hh & Hs & Hr & Ht);
    try reflexivity; [cbn; unfold maxRetries; lia|].
  cbn in Hh, Hs, Hr, Ht.
  split; [exact Hh|]. split; [exact Hs|]. split; [exact Hr|]. split.
  - intros Hgt. apply Ht; [assumption|].
    intros ->. cbn in *. unfold maxRetries in *. lia.
  - intros events Hev. now apply unloaded_page_stays_silent.
Qed.

End BridgeProperties.

Section WalletProperties.

Import WalletHistory.

Lemma reduce_sum (l : list Transaction) (acc : Z) :
  fold_left (fun sum t => sum + amount t) l acc
  = acc + fold_left (fun sum t => sum + amount t) l 0.
Proof.
  revert acc. induction l as [|t l IH]; intros acc; cbn; [lia|].
  rewrite (IH (acc + amount t)), (IH (0 + amount t)). lia.
Qed.

Lemma filtered_total (ty : string) (l : list Transaction) :
  fold_left (fun sum t => sum + amount t)
    (List.filter (fun t => String.eqb (type t) ty
                           && String.eqb (status t) "completed") l) 0
  = completed_sum ty l.
Proof.
  induction l as [|t l IH]; [reflexivity|]. cbn [List.filter completed_sum].
  destruct (String.eqb (type t) ty && String.eqb (status t) "completed");
    [|exact IH].
  cbn [fold_left]. rewrite reduce_sum, IH. lia.
Qed.

Lemma completed_sum_app (ty : string) (l1 l2 : list Transaction) :
  completed_sum ty (l1 ++ l2) = completed_sum ty l1 + completed_sum ty l2.
Proof.
  induction l1 as [|t l1 IH]; [reflexivity|]. cbn.
  destruct (String.eqb (type t) ty && String.eqb (status t) "completed"); lia.
Qed.

(** C10.  Total Credits is the sum of the amounts of the completed credit
    transactions and Total Debits that of the completed debit transactions;
    a transaction that is not completed adds to neither total, a completed
    credit adds its amount to the credits only and a completed debit to the
    debits only. *)
Theorem totals_count_completed_only (transactions : list Transaction) :
  totalCredits transactions = completed_sum "credit" transactions /\
  totalDebits transactions = completed_sum "debit" transactions /\
  (forall before t after,
     transactions = (before ++ t :: after)%list ->
     (status t <> "completed" ->
      totalCredits transactions = totalCredits (before ++ after) /\
      totalDebits transactions = totalDebits (before ++ after)) /\
     (status t = "completed" -> type t = "credit" ->
      totalCredits transactions = totalCredits (before ++ after) + amount t /\
      totalDebits transactions = totalDebits (before ++ after)) /\
     (status t = "completed" -> type t = "debit" ->
      totalCredits transactions = totalCredits (before ++ after) /\
      totalDebits transactions = totalDebits (before ++ after) + amount t)).
Proof.
  unfold totalCredits, totalDebits. rewrite !filtered_total.
  split; [reflexivity|]. split; [reflexivity|].
  intros before t after ->. rewrite !filtered_total, !completed_sum_app. cbn.
  split; [|split].
  - intros Hs. apply String.eqb_neq in Hs. rewrite Hs, !andb_false_r. lia.
  - intros -> ->. cbn. lia.
  - intros -> ->. cbn. lia.
Qed.

End WalletProperties.

(** ** The properties at the sample data *)

Section ModalWitnesses.

Import OrderDetailsModal Sample.

Lemma cancel_paid_refund_first_witness :
  isCustomOrder paidOrder = false /\
  payment_status paidOrder = Some "paid" /\
  profiles paidOrder = Some ada /\
  fst (handleRefund (modal paidOrder true blank)
         (begin_update (world shop [None; Some timeout]))) = Thrown timeout /\
  tbl_orders (store (snd (handleStatusUpdate (modal paidOrder true blank)
                            "cancelled" (world shop [None; Some timeout]))))
  = tbl_orders shop.
Proof.
  split; [reflexivity|]. split; [reflexivity|]. split; [reflexivity|].
  split; [reflexivity|].
  exact (proj1 (proj2 (proj2
    (proj2 (proj2 (proj2 (proj2
       (cancel_paid_refund_first (modal paidOrder true blank) ada
          (world shop [None; Some timeout]) eq_refl eq_refl eq_refl))))
       timeout eq_refl)))).
Defined.

(** C1, the claim as stated fails: a paid standard order that was fetched
    without its [profiles] record is cancelled with no refund applied.  The
    only calls are the status write and the notification, the order is
    cancelled with [payment_status] still paid, the wallet and the
    transactions are as before, and the success alert is shown. *)
Lemma cancelled_without_refund :
  isCustomOrder paidOrderNoProfile = false /\
  payment_status paidOrderNoProfile = Some "paid" /\
  calls (snd (handleStatusUpdate (modal paidOrderNoProfile true blank)
                "cancelled" (world shop [])))
  = [UpdateOrderStatus (id paidOrderNoProfile) "cancelled";
     InsertNotification (statusNotification paidOrderNoProfile "cancelled")] /\
  o_order_status <$>
    (tbl_orders (store (snd (handleStatusUpdate (modal paidOrderNoProfile true blank)
                               "cancelled" (world shop []))))
       !! id paidOrderNoProfile)
  = Some "cancelled" /\
  o_payment_status <$>
    (tbl_orders (store (snd (handleStatusUpdate (modal paidOrderNoProfile true blank)
                               "cancelled" (world shop []))))
       !! id paidOrderNoProfile)
  = Some "paid" /\
  tbl_profiles (store (snd (handleStatusUpdate (modal paidOrderNoProfile true blank)
                              "cancelled" (world shop []))))
  = tbl_profiles shop /\
  tbl_transactions (store (snd (handleStatusUpdate (modal paidOrderNoProfile true blank)
                                  "cancelled" (world shop []))))
  = tbl_transactions shop /\
  In (Alert "Success" "Order status updated successfully")
    (ui (snd (handleStatusUpdate (modal paidOrderNoProfile true blank)
                "cancelled" (world shop [])))).
Proof.
  repeat split; try reflexivity. vm_compute. tauto.
Qed.

Lemma cancel_without_fetched_profile_witness :
  isCustomOrder paidOrderNoProfile = false /\
  payment_status paidOrderNoProfile = Some "paid" /\
  profiles paidOrderNoProfile = None /\
  tbl_profiles (store (snd (handleStatusUpdate (modal paidOrderNoProfile true blank)
                              "cancelled" (world shop []))))
  = tbl_profiles shop /\
  tbl_orders (store (snd (handleStatusUpdate (modal paidOrderNoProfile true blank)
                            "cancelled" (world shop []))))
  = alter (set_order_status "cancelled") "0123456789abcdef" (tbl_orders shop).
Proof.
  split; [reflexivity|]. split; [reflexivity|]. split; [reflexivity|].
  pose proof (cancel_without_fetched_profile (modal paidOrderNoProfile true blank)
                (world shop []) eq_refl eq_refl eq_refl) as H.
  split; [exact (proj1 (proj2 H))|].
  exact (proj2 (proj2 (proj2 (proj2 (proj2 H)))) eq_refl).
Defined.

Lemma refund_three_steps_witness :
  profiles paidOrder = Some ada /\
  accepts 3 (faults (world shop [])) = true /\
  p_wallet_balance <$>
    (tbl_profiles (store (snd (handleRefund (modal paidOrder true blank)
                                 (world shop [])))) !! "u1")
  = Some (2000 + 15000) /\
  tbl_transactions (store (snd (handleRefund (modal paidOrder true blank)
                                  (world shop []))))
  = [refundEntry paidOrder] /\
  o_payment_status <$>
    (tbl_orders (store (snd (handleRefund (modal paidOrder true blank)
                               (world shop [])))) !! "0123456789abcdef")
  = Some "refunded".
Proof.
  split; [reflexivity|]. split; [reflexivity|].
  pose proof (proj1 (refund_three_steps (modal paidOrder true blank) ada
                       (world shop []) eq_refl) eq_refl) as H.
  split; [exact (proj1 (proj2 (proj2 (proj2 H))) adaRow eq_refl eq_refl)|].
  split; [exact (proj1 (proj2 (proj2 (proj2 (proj2 H)))))|].
  exact (proj2 (proj2 (proj2 (proj2 (proj2 (proj2 H))))) paidRow eq_refl).
Defined.

(** C3, the claim as stated fails: for a paid order of 15,000 fetched
    without its profile the refund performs no step; and with a fetched
    balance of 100 against a stored balance of 2000 the wallet ends at
    15,100, which is not an increase by 15,000. *)
Lemma refund_skipped_without_profile :
  payment_status paidOrderNoProfile = Some "paid" /\
  total paidOrderNoProfile = 15000 /\
  handleRefund (modal paidOrderNoProfile true blank) (world shop [])
  = (Returned tt, world shop []) /\
  p_wallet_balance <$>
    (tbl_profiles (store (snd (handleRefund (modal paidOrderStaleProfile true blank)
                                 (world shop [])))) !! "u1")
  = Some (100 + 15000) /\
  p_wallet_balance <$> (tbl_profiles shop !! "u1") = Some 2000.
Proof. repeat split; reflexivity. Qed.

Lemma non_admin_reaches_no_handler_witness :
  isAdmin (modal customOrder false quote) = false /\
  store (snd (press parseDigits fixedRate (modal customOrder false quote)
                PressInvoiceModalSend (world shop [])))
  = shop /\
  store (snd (press parseDigits fixedRate (modal paidOrder false blank)
                (PressStatusOption "shipped") (world shop [])))
  = shop.
Proof.
  split; [reflexivity|]. split.
  - exact (proj1 (proj2 (proj2 (proj2
      (non_admin_reaches_no_handler parseDigits fixedRate
         (modal customOrder false quote) (world shop [])
         PressInvoiceModalSend eq_refl))))).
  - exact (proj1 (proj2 (proj2 (proj2
      (non_admin_reaches_no_handler parseDigits fixedRate
         (modal paidOrder false blank) (world shop [])
         (PressStatusOption "shipped") eq_refl))))).
Defined.

Lemma quote_filled : amount quote <> "" /\ description quote <> "".
Proof. split; discriminate. Defined.

Lemma not_yet_sent : invoice_sent customOrder <> Some true.
Proof. discriminate. Defined.

Lemma send_invoice_success_witness :
  isCustomOrder customOrder = true /\
  invoice_sent customOrder = Some false /\
  invoices_of "r1" shop = [] /\
  parseDigits (amount quote) = 50000 /\
  actualPaymentCurrency customOrder = "USD" /\
  tbl_invoices (store (snd (handleSendInvoice parseDigits fixedRate
                              (modal customOrder true quote) (world shop []))))
  = [ {| i_custom_request_id := "r1"; i_user_id := "u1";
         i_amount := fixedRate 50000 "USD"; i_original_amount := 50000;
         i_currency := "USD"; i_description := "Jerseys"; i_status := "sent" |} ] /\
  exists row,
    tbl_custom_requests
      (store (snd (handleSendInvoice parseDigits fixedRate
                     (modal customOrder true quote) (world shop [])))) !! "r1"
    = Some row /\ c_status row = "quoted" /\ c_invoice_sent row = true.
Proof.
  split; [reflexivity|]. split; [reflexivity|]. split; [reflexivity|].
  split; [reflexivity|]. split; [reflexivity|].
  pose proof (send_invoice_success parseDigits fixedRate
                (modal customOrder true quote) (world shop []) requestRow
                eq_refl (proj1 quote_filled) (proj2 quote_filled) not_yet_sent
                (or_intror eq_refl) eq_refl eq_refl eq_refl) as H.
  split; [exact (proj1 H)|].
  exact (proj1 (proj2 (proj2 (proj2 (proj2 (proj2 (proj2 H))))))).
Defined.

Lemma send_invoice_twice_witness :
  id (order (modal customOrder true quote)) = "r1" /\
  invoices_of "r1" shop = [] /\
  invoices_of "r1"
    (store (snd (handleSendInvoice parseDigits fixedRate
                   (modal customOrder true quote)
                   (snd (handleSendInvoice parseDigits fixedRate
                           (modal customOrder true quote) (world shop []))))))
  = [builtInvoice parseDigits fixedRate (modal customOrder true quote)] /\
  (exists t body,
    ui (snd (handleSendInvoice parseDigits fixedRate
               (modal customOrder true quote)
               (snd (handleSendInvoice parseDigits fixedRate
                       (modal customOrder true quote) (world shop [])))))
    = (ui (snd (handleSendInvoice parseDigits fixedRate
                  (modal customOrder true quote) (world shop [])))
       ++ [Alert t body])%list
    /\ already_sent_title t = true) /\
  invoice_sent sentCopy = Some true /\
  next_fault (snd (handleSendInvoice parseDigits fixedRate
                     (modal customOrder true quote)
                     (world shop [None; None; None; Some timeout])))
  = Some timeout /\
  calls (snd (handleSendInvoice parseDigits fixedRate
                (modal sentCopy true quote)
                (snd (handleSendInvoice parseDigits fixedRate
                        (modal customOrder true quote)
                        (world shop [None; None; None; Some timeout])))))
  = calls (snd (handleSendInvoice parseDigits fixedRate
                  (modal customOrder true quote)
                  (world shop [None; None; None; Some timeout]))).
Proof.
  split; [reflexivity|]. split; [reflexivity|].
  pose proof (send_invoice_twice parseDigits fixedRate
                (modal customOrder true quote) (modal customOrder true quote)
                (world shop []) eq_refl
                (proj1 quote_filled) (proj2 quote_filled) not_yet_sent
                (or_intror eq_refl) eq_refl eq_refl
                (proj1 quote_filled) (proj2 quote_filled)) as H.
  split; [exact (proj1 (proj2 (proj2 H)))|].
  split; [exact (proj1 (proj2 (proj2 (proj2 H))) eq_refl)|].
  split; [reflexivity|]. split; [reflexivity|].
  pose proof (send_invoice_twice parseDigits fixedRate
                (modal customOrder true quote) (modal sentCopy true quote)
                (world shop [None; None; None; Some timeout]) eq_refl
                (proj1 quote_filled) (proj2 quote_filled) not_yet_sent
                (or_intror eq_refl) eq_refl eq_refl
                (proj1 quote_filled) (proj2 quote_filled)) as H'.
  exact (proj1 (proj1 (proj2 (proj2 (proj2 (proj2 (proj2 H'))))) eq_refl)).
Defined.

End ModalWitnesses.

Section BridgeWitnesses.

Import PaystackPayment Sample.

Lemma channel_present : ReactNativeWebView <> NoChannel.
Proof. discriminate. Defined.


Lemma provider_receives_kobo_witness :
  spliceable checkout = true /\
  setups (run checkout (present true ReactNativeWebView) [ClickPay attempt])
  = [{| cfg_key := "pk_test"; cfg_email := "ada@example.com";
        cfg_amount := 100000%float; cfg_currency := "NGN"; cfg_ref := 42;
        cfg_customer_name := "Ada" |}] /\
  List.map cfg_amount
    (setups (run checkout (present true ReactNativeWebView) [ClickPay attempt]))
  = [100000%float].
Proof.
  split; [reflexivity|].
  pose proof (provider_receives_kobo checkout true ReactNativeWebView []
                eq_refl) as H.
  split; [exact (proj1 (proj2 (proj2 H)) attempt eq_refl)|].
  exact (proj2 (proj2 (proj2 H)) eq_refl attempt eq_refl).
Defined.

(** C8, the claim as stated fails.  The product is a product of doubles:
    for the whole amount 9007199254740989 the provider receives
    900719925474098944, which is not the amount times 100, and for the
    double nearest to 19.99 it receives the double below 1999, which is no
    whole number of kobo.  And the props reach the provider through the text
    of the script: the literal that an e-mail with an apostrophe makes ends
    at the apostrophe. *)
Lemma kobo_is_a_double_product :
  spliceable (checkoutOf wholeAmount) = true /\
  Js.exactZ wholeAmount = Some 9007199254740989 /\
  List.map (fun c => Js.exactZ (cfg_amount c))
    (setups (run (checkoutOf wholeAmount) (present true ReactNativeWebView)
               [ClickPay attempt]))
  = [Some 900719925474098944] /\
  900719925474098944 <> 9007199254740989 * 100 /\
  spliceable (checkoutOf fractionalAmount) = true /\
  List.map cfg_amount
    (setups (run (checkoutOf fractionalAmount) (present true ReactNativeWebView)
               [ClickPay attempt]))
  = [0x1.f3bffffffffffp+10%float] /\
  PrimFloat.ltb 0x1.f3bffffffffffp+10 1999 = true /\
  Js.exactZ 0x1.f3bffffffffffp+10 = None /\
  spliceable obrien = false /\
  Js.literal Js.singleQuote (email obrien) = "o".
Proof. repeat split; try reflexivity. discriminate. Qed.


End BridgeWitnesses.

Section WalletExamples.

Import WalletHistory Sample.

Example totals_example :
  let history := [entry "credit" 15000 "completed"; entry "credit" 700 "pending";
                  entry "debit" 4000 "completed"; entry "debit" 90 "failed";
                  entry "credit" 250 "completed"] in
  totalCredits history = 15250 /\ totalDebits history = 4000.
Proof. split; reflexivity. Qed.

End WalletExamples.

(** * Further properties of the order-details modal *)

Section ModalExtras.

Import OrderDetailsModal.

Ltac open_world w := destruct w as [?s ?fs ?cs ?u]; cbn in *.

Ltac next_call :=
  match goal with
  | |- context [supabase _ {| store := _; faults := ?fs; calls := _; ui := _ |}] =>
      is_var fs; destruct fs as [|[?e|] ?fs]; cbn in *
  end.

(** X1.  [handleStatusUpdate] never raises: whatever the order, the status
    and the store do, it returns, having set [updating] first and cleared it
    last, and having shown exactly one alert in between. *)
Theorem status_update_always_settles (m : Modal) (newStatus : string) (w : World) :
  fst (handleStatusUpdate m newStatus w) = Returned tt /\
  exists mid,
    ui (snd (handleStatusUpdate m newStatus w))
    = (ui w ++ SetUpdating true :: mid ++ [SetUpdating false])%list /\
    length (List.filter is_alert mid) = 1%nat.
Proof.
  unfold handleStatusUpdate, handleRefund, statusWrite.
  destruct (String.eqb newStatus "cancelled" && negb (isCustomOrder (order m))
            && equals (payment_status (order m)) "paid");
    destruct (isCustomOrder (order m)); destruct (profiles (order m));
    open_world w; unfold finally, try_catch, bind; cbn; repeat next_call.
  all: split; [reflexivity|].
  all: rewrite <- ?app_assoc; cbn [app].
  all: match goal with
       | |- exists mid, (?u ++ SetUpdating true :: ?l)%list = _ /\ _ =>
           exists (removelast l)
       end; cbn; split; reflexivity.
Qed.

Lemma refund_not_due (o : Order) (newStatus : string) :
  newStatus <> "cancelled" \/ isCustomOrder o = true
  \/ payment_status o <> Some "paid" ->
  String.eqb newStatus "cancelled" && negb (isCustomOrder o)
  && equals (payment_status o) "paid" = false.
Proof.
  intros [H | [H | H]].
  - apply String.eqb_neq in H. now rewrite H.
  - rewrite H. apply andb_false_intro1, andb_false_r.
  - destruct (payment_status o) as [v|]; cbn; [|apply andb_false_r].
    destruct (String.eqb v "paid") eqn:Hv; [|apply andb_false_r].
    apply String.eqb_eq in Hv. congruence.
Qed.

(** X2.  A status update that is not the cancellation of a paid standard
    order issues no call of the refund and leaves every wallet and the
    ledger of transactions as they were. *)
Theorem no_refund_unless_cancelling_paid (m : Modal) (newStatus : string) (w : World) :
  newStatus <> "cancelled" \/ isCustomOrder (order m) = true
  \/ payment_status (order m) <> Some "paid" ->
  let w' := snd (handleStatusUpdate m newStatus w) in
  (exists issued, calls w' = (calls w ++ issued)%list /\
                  forallb (fun c => negb (is_refund_call c)) issued = true) /\
  tbl_profiles (store w') = tbl_profiles (store w) /\
  tbl_transactions (store w') = tbl_transactions (store w).
Proof.
  intros H w'. subst w'. unfold handleStatusUpdate, statusWrite.
  rewrite (refund_not_due _ _ H).
  destruct (isCustomOrder (order m));
    open_world w; unfold finally, try_catch, bind; cbn; repeat next_call.
  all: rewrite <- ?app_assoc; cbn [app].
  all: split; [eexists; split; reflexivity | split; reflexivity].
Qed.

(** X3.  A status other than cancelled, with the status write accepted: the
    calls are the status write and then one notification for the owner of
    the order, the success alert is shown and the two callbacks run; when
    the insert of the notification fails this is not noticed, the outcome is
    the same and only the notification is missing. *)
Theorem status_write_then_notification (m : Modal) (newStatus : string) (w : World) :
  newStatus <> "cancelled" ->
  next_fault w = None ->
  let o := order m in
  let w' := snd (handleStatusUpdate m newStatus w) in
  calls w' = (calls w ++ [statusWrite o newStatus;
                          InsertNotification (statusNotification o newStatus)])%list /\
  n_user_id (statusNotification o newStatus) = user_id o /\
  ui w' = (ui w ++ [SetUpdating true;
                    Alert "Success" "Order status updated successfully";
                    OnOrderUpdate; OnClose; SetUpdating false])%list /\
  (fault_at 1 (faults w) = None ->
   tbl_notifications (store w')
   = (tbl_notifications (store w) ++ [statusNotification o newStatus])%list) /\
  (fault_at 1 (faults w) <> None ->
   tbl_notifications (store w') = tbl_notifications (store w)).
Proof.
  intros Hs Hf o w'. subst o w'. unfold handleStatusUpdate, statusWrite.
  rewrite (refund_not_due _ _ (or_introl Hs)). unfold fault_at.
  destruct (isCustomOrder (order m));
    open_world w; unfold finally, try_catch, bind; cbn; repeat next_call;
    try discriminate.
  all: rewrite <- ?app_assoc; cbn [app].
  all: repeat split; try reflexivity; try congruence.
Qed.

(** X4.  A status other than cancelled, with the status write refused: the
    store is left as it was, no notification is issued, the error alert is
    shown and neither callback runs. *)
Theorem status_write_refused (m : Modal) (newStatus : string) (w : World) (e : PgError) :
  newStatus <> "cancelled" ->
  next_fault w = Some e ->
  let w' := snd (handleStatusUpdate m newStatus w) in
  store w' = store w /\
  calls w' = (calls w ++ [statusWrite (order m) newStatus])%list /\
  ui w' = (ui w ++ [SetUpdating true; ConsoleError "Error updating status:";
                    Alert "Error" "Failed to update order status";
                    SetUpdating false])%list.
Proof.
  intros Hs Hf w'. subst w'. unfold handleStatusUpdate, statusWrite.
  rewrite (refund_not_due _ _ (or_introl Hs)).
  destruct (isCustomOrder (order m));
    open_world w; unfold finally, try_catch, bind; cbn; repeat next_call;
    try discriminate.
  all: rewrite <- ?app_assoc; cbn [app].
  all: repeat split; reflexivity.
Qed.

(** X5.  A status update of a custom order writes the [custom_requests]
    table only: orders, profiles, transactions and invoices are untouched
    whatever the status, and when the write is accepted the row of the
    request takes the new status and keeps its [invoice_sent] flag. *)
Theorem custom_status_update_frame (m : Modal) (newStatus : string) (w : World) :
  isCustomOrder (order m) = true ->
  let w' := snd (handleStatusUpdate m newStatus w) in
  tbl_orders (store w') = tbl_orders (store w) /\
  tbl_profiles (store w') = tbl_profiles (store w) /\
  tbl_transactions (store w') = tbl_transactions (store w) /\
  tbl_invoices (store w') = tbl_invoices (store w) /\
  (next_fault w = None ->
   forall row, tbl_custom_requests (store w) !! id (order m) = Some row ->
     tbl_custom_requests (store w') !! id (order m)
     = Some {| c_user_id := c_user_id row; c_title := c_title row;
               c_status := newStatus; c_invoice_sent := c_invoice_sent row |}).
Proof.
  intros Hc w'. subst w'. unfold handleStatusUpdate, statusWrite.
  rewrite (refund_not_due _ newStatus (or_intror (or_introl Hc))), Hc.
  open_world w; unfold finally, try_catch, bind; cbn; repeat next_call.
  all: repeat split; try reflexivity; try discriminate.
  all: intros _ row Hrow; rewrite lookup_alter, decide_True by reflexivity;
       now rewrite Hrow.
Qed.

Section SendExtras.

Variable parseFloat : string -> Z.
Variable convertToNGN : Z -> string -> Z.

Arguments invoices_of : simpl never.

(** X6.  The option of a status cannot be pressed when the order is in a
    final status (completed, cancelled, delivered, rejected), when the
    status is the current one, when an update is under way, or when the
    status is not one of the list of the order's kind: such a press changes
    nothing. *)
Theorem status_option_inert (m : Modal) (newStatus : string) (w : World) :
  In (currentStatusText (order m)) ["completed"; "cancelled"; "delivered"; "rejected"]
  \/ currentStatus (order m) = Some newStatus
  \/ updating m = true
  \/ ~ In newStatus (if isCustomOrder (order m) then customStatusOptions
                     else statusOptions) ->
  press parseFloat convertToNGN m (PressStatusOption newStatus) w = (Returned tt, w).
Proof.
  intros H.
  assert (Hp : pressable m (PressStatusOption newStatus) = false).
  { unfold pressable. destruct H as [H | [H | [H | H]]].
    - assert (Hin : existsb (String.eqb (currentStatusText (order m)))
                      ["completed"; "cancelled"; "delivered"; "rejected"] = true).
      { apply existsb_exists. exists (currentStatusText (order m)).
        split; [exact H | apply String.eqb_refl]. }
      rewrite Hin. cbn. now rewrite !andb_false_r.
    - rewrite H. cbn. rewrite String.eqb_refl, orb_true_r. cbn.
      apply andb_false_r.
    - rewrite H. cbn. apply andb_false_r.
    - assert (Hin : existsb (String.eqb newStatus)
                      (if isCustomOrder (order m) then customStatusOptions
                       else statusOptions) = false).
      { destruct (existsb _ _) eqn:He; [|reflexivity].
        apply existsb_exists in He as (x & Hx & Heq).
        apply String.eqb_eq in Heq. subst x. contradiction. }
      rewrite Hin. now rewrite andb_false_r. }
  unfold press. now rewrite Hp.
Qed.

(** X7.  The send-invoice button and the guards of [handleSendInvoice]
    agree: whenever the button is shown, a send with the form filled passes
    both guards and its first call is the insert of the invoice; and the
    button is never shown together with the card that says an invoice has
    already been sent. *)
Theorem send_button_passes_guards (m : Modal) (w : World) :
  canSendInvoice m = true ->
  amount (invoiceData m) <> "" ->
  description (invoiceData m) <> "" ->
  invoiceAlreadySentCard m = false /\
  isAdmin m = true /\
  isCustomOrder (order m) = true /\
  exists later,
    calls (snd (handleSendInvoice parseFloat convertToNGN m w))
    = (calls w ++ InsertInvoice (builtInvoice parseFloat convertToNGN m) :: later)%list.
Proof.
  unfold canSendInvoice, invoiceAlreadySentCard. intros Hcan Ha Hd.
  destruct (isAdmin m); [|discriminate]. 
  destruct (isCustomOrder (order m)); [|discriminate]. cbn [negb orb andb] in Hcan |- *.
  destruct (existsb _ _); [discriminate|].
  destruct (match invoice_sent (order m) with Some b => b | None => false end)
    eqn:Hsent; [discriminate|].
  destruct (match invoices (order m) with Some (_ :: _) => true | _ => false end)
    eqn:Hinv; [discriminate|].
  repeat split.
  unfold handleSendInvoice.
  apply String.eqb_neq in Ha, Hd. rewrite Ha, Hd, Hsent, Hinv. cbn [orb].
  fold (builtInvoice parseFloat convertToNGN m).
  open_world w. unfold try_catch, bind.
  next_call; [ | | ].
  - destruct (invoices_of _ s); cbn; repeat next_call;
      rewrite <- ?app_assoc; cbn [app]; eexists; reflexivity.
  - destruct (_ && _); cbn; rewrite <- ?app_assoc; cbn [app];
      eexists; reflexivity.
  - destruct (invoices_of _ s); cbn; repeat next_call;
      rewrite <- ?app_assoc; cbn [app]; eexists; reflexivity.
Qed.

(** X8.  When the invoice is stored but the update of the request is
    refused, the send stops there: the invoice stays, the request is left
    unmarked, no notification is issued and the generic failure alert is
    shown. *)
Theorem send_invoice_half_applied (m : Modal) (w : World) (e : PgError) :
  amount (invoiceData m) <> "" ->
  description (invoiceData m) <> "" ->
  invoice_sent (order m) <> Some true ->
  invoices (order m) = None \/ invoices (order m) = Some [] ->
  invoices_of (id (order m)) (store w) = [] ->
  fault_at 0 (faults w) = None ->
  fault_at 1 (faults w) = Some e ->
  let w' := snd (handleSendInvoice parseFloat convertToNGN m w) in
  tbl_invoices (store w')
  = (tbl_invoices (store w) ++ [builtInvoice parseFloat convertToNGN m])%list /\
  tbl_custom_requests (store w') = tbl_custom_requests (store w) /\
  tbl_notifications (store w') = tbl_notifications (store w) /\
  calls w' = (calls w ++ [InsertInvoice (builtInvoice parseFloat convertToNGN m);
                          MarkInvoiceSent (id (order m)) "quoted" true])%list /\
  ui w' = (ui w ++ [ConsoleError "Error sending invoice:";
                    Alert "Error" "Failed to send invoice"])%list.
Proof.
  intros Ha Hd Hsent Hinv Hnone H0 H1 w'. subst w'. unfold handleSendInvoice.
  apply String.eqb_neq in Ha, Hd. rewrite Ha, Hd. cbn [orb].
  assert (Hs : match invoice_sent (order m) with Some b => b | None => false end
               = false) by (destruct (invoice_sent (order m)) as [[|]|]; congruence).
  assert (Hi : match invoices (order m) with Some (_ :: _) => true | _ => false end
               = false) by (now destruct Hinv as [-> | ->]).
  rewrite Hs, Hi. fold (builtInvoice parseFloat convertToNGN m).
  unfold fault_at in *. open_world w. unfold try_catch, bind.
  repeat (next_call; rewrite ?Hnone; cbn); try discriminate.
  rewrite <- ?app_assoc. cbn [app]. repeat split; reflexivity.
Qed.

(** X9.  When the insert of the invoice is refused with an error that is
    not recognised as the uniqueness violation (another code, or code 23505
    without the name of the constraint in the message), the send ends in the
    generic failure alert; nothing is stored and no further call is
    issued. *)
Theorem send_invoice_unrecognised_error (m : Modal) (w : World) (e : PgError) :
  amount (invoiceData m) <> "" ->
  description (invoiceData m) <> "" ->
  invoice_sent (order m) <> Some true ->
  invoices (order m) = None \/ invoices (order m) = Some [] ->
  next_fault w = Some e ->
  recognised e = false ->
  let w' := snd (handleSendInvoice parseFloat convertToNGN m w) in
  store w' = store w /\
  calls w' = (calls w ++ [InsertInvoice (builtInvoice parseFloat convertToNGN m)])%list /\
  ui w' = (ui w ++ [ConsoleError "Error sending invoice:";
                    Alert "Error" "Failed to send invoice"])%list.
Proof.
  intros Ha Hd Hsent Hinv Hf Hrec w'. subst w'. unfold handleSendInvoice.
  apply String.eqb_neq in Ha, Hd. rewrite Ha, Hd. cbn [orb].
  assert (Hs : match invoice_sent (order m) with Some b => b | None => false end
               = false) by (destruct (invoice_sent (order m)) as [[|]|]; congruence).
  assert (Hi : match invoices (order m) with Some (_ :: _) => true | _ => false end
               = false) by (now destruct Hinv as [-> | ->]).
  rewrite Hs, Hi. fold (builtInvoice parseFloat convertToNGN m).
  unfold recognised in Hrec. open_world w. unfold try_catch, bind.
  next_call; try discriminate. injection Hf as ->. rewrite Hrec. cbn.
  rewrite <- ?app_assoc. repeat split; reflexivity.
Qed.

(** X10.  [handleSendInvoice] never raises and never touches a wallet, an
    order or the ledger: profiles, orders and transactions are as before in
    every run, and so are the invoices of every other request. *)
Theorem send_invoice_frame (m : Modal) (w : World) :
  let r := handleSendInvoice parseFloat convertToNGN m w in
  fst r = Returned tt /\
  tbl_profiles (store (snd r)) = tbl_profiles (store w) /\
  tbl_orders (store (snd r)) = tbl_orders (store w) /\
  tbl_transactions (store (snd r)) = tbl_transactions (store w) /\
  (forall request, request <> id (order m) ->
     invoices_of request (store (snd r)) = invoices_of request (store w)) /\
  (forall request, request <> id (order m) ->
     tbl_custom_requests (store (snd r)) !! request
     = tbl_custom_requests (store w) !! request).
Proof.
  intros r. subst r. unfold handleSendInvoice.
  repeat match goal with |- context [if ?b then _ else _] =>
    lazymatch b with
    | String.eqb (actualPaymentCurrency _) _ => fail
    | _ => destruct b; [repeat split; reflexivity|]
    end end.
  fold (builtInvoice parseFloat convertToNGN m).
  open_world w. unfold try_catch, bind.
  assert (Hother : forall (i : InvoiceRow) request,
            request <> i_custom_request_id i ->
            invoices_of request (with_invoices s (tbl_invoices s ++ [i]))
            = invoices_of request s).
  { intros i request Hne. unfold invoices_of. cbn. rewrite List.filter_app. cbn.
    apply not_eq_sym, String.eqb_neq in Hne. rewrite Hne. apply app_nil_r. }
  next_call.
  - destruct (invoices_of (id (order m)) s) eqn:Hi; cbn; repeat next_call;
      repeat split; try reflexivity; intros request Hne;
      rewrite ?lookup_alter_ne by congruence; try reflexivity;
      now apply Hother.
  - destruct (_ && _); cbn; repeat split; reflexivity.
  - destruct (invoices_of (id (order m)) s) eqn:Hi; cbn; repeat next_call;
      repeat split; try reflexivity; intros request Hne;
      rewrite ?lookup_alter_ne by congruence; try reflexivity;
      now apply Hother.
Qed.

End SendExtras.

(** X11.  When the first two calls of the refund are accepted and the third
    is refused, the refund raises with the wallet written and the credit
    entry stored while the order still carries its old [payment_status]. *)
Theorem refund_third_step_refused (m : Modal) (p : ProfileCopy) (w : World) (e : PgError) :
  profiles (order m) = Some p ->
  fault_at 0 (faults w) = None ->
  fault_at 1 (faults w) = None ->
  fault_at 2 (faults w) = Some e ->
  let o := order m in
  let r := handleRefund m w in
  fst r = Thrown e /\
  calls (snd r) = (calls w ++ [creditWallet o p; InsertTransaction (refundEntry o);
                               markRefunded o])%list /\
  tbl_profiles (store (snd r))
  = alter (set_wallet (wallet_balance p + total o)) (user_id o)
      (tbl_profiles (store w)) /\
  tbl_transactions (store (snd r))
  = (tbl_transactions (store w) ++ [refundEntry o])%list /\
  tbl_orders (store (snd r)) = tbl_orders (store w).
Proof.
  intros Hp H0 H1 H2 o r. subst o r. unfold handleRefund. rewrite Hp.
  unfold creditWallet, markRefunded, refundEntry, fault_at in *.
  open_world w. unfold try_catch, bind; cbn. repeat next_call; try discriminate.
  injection H2 as ->. rewrite <- ?app_assoc. cbn [app]. repeat split; reflexivity.
Qed.

(** X12.  A refund that failed at its third call and is run again from the
    same fetched order, this time accepted throughout: the wallet ends at
    the fetched balance plus the total, as after a single refund, but the
    ledger holds two credit entries for the order. *)
Theorem refund_retried (m : Modal) (p : ProfileCopy) (w : World) (e : PgError)
  (rest : list (option PgError)) :
  profiles (order m) = Some p ->
  faults w = None :: None :: Some e :: rest ->
  accepts 3 rest = true ->
  let o := order m in
  let w1 := snd (handleRefund m w) in
  let r := handleRefund m w1 in
  fst r = Returned tt /\
  tbl_profiles (store (snd r))
  = alter (set_wallet (wallet_balance p + total o)) (user_id o)
      (tbl_profiles (store w)) /\
  tbl_transactions (store (snd r))
  = (tbl_transactions (store w) ++ [refundEntry o; refundEntry o])%list /\
  tbl_orders (store (snd r))
  = alter (set_payment_status "refunded") (id o) (tbl_orders (store w)).
Proof.
  intros Hp Hf Hacc o w1 r. subst o w1 r. unfold handleRefund. rewrite Hp.
  unfold refundEntry.
  destruct w as [s fs cs u]. cbn in Hf. subst fs.
  unfold try_catch, bind; cbn. repeat next_call; try discriminate.
  all: rewrite <- ?app_assoc; cbn [app].
  all: repeat split; try reflexivity.
  all: apply map_eq; intros k; rewrite !lookup_alter;
       repeat case_decide; subst; try congruence;
       now destruct (tbl_profiles s !! _).
Qed.

(** X13.  The refund touches the row of the owner and the row of the order
    and nothing else: every other profile and every other order is as
    before, no order changes its [order_status], and the requests, invoices
    and notifications are untouched, in every run. *)
Theorem refund_frame (m : Modal) (w : World) :
  let o := order m in
  let w' := snd (handleRefund m w) in
  (forall k, k <> user_id o ->
     tbl_profiles (store w') !! k = tbl_profiles (store w) !! k) /\
  (forall k, k <> id o ->
     tbl_orders (store w') !! k = tbl_orders (store w) !! k) /\
  (forall k, o_order_status <$> (tbl_orders (store w') !! k)
             = o_order_status <$> (tbl_orders (store w) !! k)) /\
  tbl_custom_requests (store w') = tbl_custom_requests (store w) /\
  tbl_invoices (store w') = tbl_invoices (store w) /\
  tbl_notifications (store w') = tbl_notifications (store w).
Proof.
  intros o w'. subst o w'. unfold handleRefund.
  destruct (profiles (order m)) as [p|]; [|repeat split; reflexivity].
  open_world w. unfold try_catch, bind; cbn. repeat next_call.
  all: repeat split; try reflexivity.
  all: try (intros k Hk; rewrite ?lookup_alter_ne by congruence; reflexivity).
  all: intros k; rewrite lookup_alter; case_decide; [subst|reflexivity];
       now destruct (tbl_orders s !! _).
Qed.

(** X14.  The payment currency is never the empty string: it is the
    currency of the order when that is set; otherwise, for a custom order
    only, the preferred currency of the fetched profile when that is set;
    and NGN in every other case. *)
Theorem payment_currency_never_empty (o : Order) :
  getActualPaymentCurrency o <> "" /\
  (Js.truthy (currency o) = true -> Some (getActualPaymentCurrency o) = currency o) /\
  (Js.truthy (currency o) = false -> isCustomOrder o = false ->
   getActualPaymentCurrency o = "NGN") /\
  (Js.truthy (currency o) = false -> isCustomOrder o = true ->
   forall p, profiles o = Some p ->
     (Js.truthy (preferred_currency p) = true ->
      Some (getActualPaymentCurrency o) = preferred_currency p) /\
     (Js.truthy (preferred_currency p) = false ->
      getActualPaymentCurrency o = "NGN")) /\
  (Js.truthy (currency o) = false -> profiles o = None ->
   getActualPaymentCurrency o = "NGN").
Proof.
  unfold getActualPaymentCurrency, Js.or_else.
  destruct (currency o) as [[|c cur]|]; destruct (isCustomOrder o);
    destruct (profiles o) as [[fn em wb [[|c' pc]|]]|]; cbn.
  all: repeat split; try discriminate; try reflexivity.
  all: try (intros; discriminate).
  all: match goal with H : Some _ = Some _ |- _ => injection H as <- end; cbn.
  all: intros; reflexivity || discriminate.
Qed.

(** X15.  Every status of the two option lists has a case of its own in
    [getStatusColor], so none of them is shown in the fallback grey; the
    fallback is what an order without a status gets. *)
Theorem every_option_has_a_colour (o : Order) :
  Forall (fun s => getStatusColor s <> defaultColor)
    (statusOptions ++ customStatusOptions) /\
  (currentStatus o = None -> badgeColor o = defaultColor) /\
  (forall s, ~ In s (statusOptions ++ customStatusOptions) ->
             getStatusColor s = defaultColor).
Proof.
  split; [|split].
  - repeat constructor; discriminate.
  - intros H. unfold badgeColor, currentStatusText. now rewrite H.
  - intros s Hs. unfold getStatusColor, statusColors. cbn [switch].
    repeat match goal with
    | |- context [String.eqb s ?l] =>
        destruct (String.eqb s l) eqn:Heq;
        [apply String.eqb_eq in Heq; exfalso; apply Hs; rewrite Heq; cbn; tauto
        |clear Heq]
    end.
    reflexivity.
Qed.

End ModalExtras.

(** * Further properties of the payment bridge *)

Section BridgeExtras.

Import PaystackPayment.

Variable p : Props.



Lemma step_success_origin (s : Page) (e : Event) (d : string) :
  In (OnSuccess d) (host (step p s e)) ->
  In (OnSuccess d) (host s) \/ e = ProviderCallback d.
Proof.
  assert (Hpost : forall msg s0, In (OnSuccess d) (host (postMessage msg s0)) ->
            In (OnSuccess d) (host s0) \/ msg = MsgSuccess d).
  { intros msg s0. unfold postMessage.
    destruct (channel s0); cbn; [| |now left].
    all: rewrite in_app_iff; cbn; intros [H | [H | []]]; [now left|].
    all: destruct msg; cbn in H; try discriminate; injection H as ->; now right. }
  assert (Hpay : forall a s0, In (OnSuccess d) (host (payWithPaystack p a s0)) ->
            In (OnSuccess d) (host s0)).
  { intros a s0. unfold payWithPaystack.
    destruct (paymentInProgress s0); [tauto|].
    destruct (negb (PaystackPop s0)).
    - destruct (retryCount s0 <? maxRetries)%nat; cbn; tauto.
    - destruct (setupError a); cbn; [|tauto].
      intros H. apply Hpost in H as [H | H]; [exact H | discriminate]. }
  destruct e; cbn [step].
  - destruct (payButtonDisabled s); [tauto|]. intros H. left. now apply Hpay in H.
  - unfold cancelPayment. destruct (paymentInProgress s); [tauto|].
    intros H. apply Hpost in H as [H | H]; [now left | discriminate].
  - destruct (autoTriggerPending s); [|tauto].
    match goal with |- context [if ?b then _ else _] => destruct b end;
      [|cbn; tauto]. intros H. left. now apply Hpay in H.
  - destruct (pendingOpen s); [tauto|]. destruct throws; [|cbn; tauto].
    intros H. apply Hpost in H as [H | H]; [now left | discriminate].
  - destruct (pendingHide s); cbn; tauto.
  - destruct (checkoutOpen s); [tauto|].
    intros H. apply Hpost in H as [H | H]; [now left|].
    injection H as ->. now right.
  - destruct (checkoutOpen s); [tauto|].
    intros H. apply Hpost in H as [H | H]; [now left | discriminate].
  - destruct (paymentInProgress s); cbn; tauto.
  - cbn. rewrite in_app_iff. cbn. intros [H | [H | []]]; [now left | discriminate].
  - cbn. rewrite in_app_iff. cbn. intros [H | [H | []]]; [now left | discriminate].
  - cbn. rewrite in_app_iff. cbn. intros [H | [H | []]]; [now left | discriminate].
Qed.

(** X17.  For props that are spliceable, so that the script of the page is
    the one written, the host's [onSuccess] is called with a response only
    when the provider called [callback] with that response: no press, timer,
    error or closing of the checkout ever reports a success. *)
Theorem success_only_from_provider
  (loaded : bool) (ch : Channel) (events : list Event) (d : string) :
  spliceable p = true ->
  In (OnSuccess d) (host (run p (present loaded ch) events)) ->
  In (ProviderCallback d) events.
Proof.
  intros _.
  assert (H : forall events s,
    In (OnSuccess d) (host (run p s events)) ->
    In (OnSuccess d) (host s) \/ In (ProviderCallback d) events).
  { clear. induction events as [|e events IH]; intros s Hin; [now left|].
    change (run p s (e :: events)) with (run p (step p s e) events) in Hin.
    apply IH in Hin as [Hin | Hin]; [|right; now right].
    apply step_success_origin in Hin as [Hin | ->]; [now left | right; now left]. }
  intros Hin. apply H in Hin as [[] | Hin]. exact Hin.
Qed.

(** X18.  A whole payment, for props that are spliceable, from a page at
    rest with the provider loaded: a press on Pay, the checkout opening and
    the provider calling back hand the provider one configuration, which
    carries the key, the e-mail and the customer name of the props, call
    [onSuccess] once with the response and leave the page at rest again. *)
Theorem payment_round_trip (s : Page) (a : Attempt) (response : string) :
  spliceable p = true ->
  idle s ->
  PaystackPop s = true ->
  channel s <> NoChannel ->
  setupError a = None ->
  let s' := run p s [ClickPay a; OpenTimer false; ProviderCallback response] in
  host s' = (host s ++ [OnSuccess response])%list /\
  setups s' = (setups s ++ [setupConfig p a])%list /\
  cfg_key (setupConfig p a) = publicKey p /\
  cfg_email (setupConfig p a) = email p /\
  cfg_customer_name (setupConfig p a) = customerName p /\
  idle s'.
Proof.
  intros Hsp (Hp & Hb & Hl & Hpo & Hco) Hpop Hch Ha s'. subst s'.
  destruct (spliced_as_given p a Hsp) as (Hk & He & Hn).
  destruct s as [pip rc dis lo er tx pop ch au st po co ph ho]. cbn in *.
  subst. cbn. unfold payWithPaystack. cbn. rewrite Ha. cbn.
  unfold postMessage. cbn. destruct ch; try contradiction; cbn;
    repeat split; solve [reflexivity | assumption].
Qed.

Lemma silent_postMessage (msg : Message) (s : Page) :
  channel s = NoChannel -> host (postMessage msg s) = host s.
Proof. intros H. unfold postMessage. now rewrite H. Qed.

Lemma silent_payWithPaystack (a : Attempt) (s : Page) :
  channel s = NoChannel -> host (payWithPaystack p a s) = host s.
Proof.
  intros H. unfold payWithPaystack.
  destruct (paymentInProgress s); [reflexivity|].
  destruct (negb (PaystackPop s)).
  - now destruct (retryCount s <? maxRetries)%nat.
  - destruct (setupError a); [|reflexivity].
    now rewrite silent_postMessage.
Qed.

Lemma silent_step (s : Page) (e : Event) :
  webview_event e = false -> channel s = NoChannel ->
  host (step p s e) = host s.
Proof.
  intros He Hch. destruct e; try discriminate He; cbn [step].
  - destruct (payButtonDisabled s); [reflexivity|].
    now apply silent_payWithPaystack.
  - unfold cancelPayment. destruct (paymentInProgress s);
      [reflexivity | now apply silent_postMessage].
  - destruct (autoTriggerPending s); [|reflexivity].
    match goal with |- context [if ?b then _ else _] => destruct b end;
      [|reflexivity].
    now rewrite silent_payWithPaystack.
  - destruct (pendingOpen s); [reflexivity|].
    destruct throws; [now rewrite silent_postMessage | reflexivity].
  - now destruct (pendingHide s).
  - destruct (checkoutOpen s); [reflexivity | now rewrite silent_postMessage].
  - destruct (checkoutOpen s); [reflexivity | now rewrite silent_postMessage].
  - now destruct (paymentInProgress s).
Qed.

(** X19.  Without a bridge object on [window] the page reports nothing:
    whatever happens in the page, the host is called only for the failures
    of the web view itself. *)
Theorem no_bridge_no_report (loaded : bool) (events : list Event) :
  forallb (fun e => negb (webview_event e)) events = true ->
  host (run p (present loaded NoChannel) events) = [].
Proof.
  assert (H : forall events s,
    forallb (fun e => negb (webview_event e)) events = true ->
    channel s = NoChannel -> host (run p s events) = host s).
  { clear. induction events as [|e events IH]; intros s Hev Hch; [reflexivity|].
    cbn [forallb] in Hev. apply andb_prop in Hev as [He Hev].
    apply negb_true_iff in He.
    change (run p s (e :: events)) with (run p (step p s e) events).
    rewrite IH; [now apply silent_step | exact Hev |].
    rewrite step_channel. exact Hch. }
  intros Hev. now rewrite H.
Qed.

End BridgeExtras.

(** * Further properties of the wallet history *)

Section WalletExtras.

Import WalletHistory.

Lemma totals_as_sums (l : list Transaction) :
  totalCredits l = completed_sum "credit" l /\
  totalDebits l = completed_sum "debit" l.
Proof. unfold totalCredits, totalDebits. now rewrite !filtered_total. Qed.

Lemma skipped_in_sum (ty : string) (t : Transaction) (before after : list Transaction) :
  String.eqb (type t) ty && String.eqb (status t) "completed" = false ->
  completed_sum ty (before ++ t :: after) = completed_sum ty (before ++ after).
Proof. intros H. rewrite !completed_sum_app. cbn. now rewrite H. Qed.

(** X21.  A fetch that fails keeps the list on screen, and with it both
    totals, and clears [loading]; a successful fetch without rows shows the
    empty list; a refresh always ends with [refreshing] cleared; and without
    a user nothing happens at all, so the screen as first rendered stays in
    its loading state. *)
Theorem fetch_failure_keeps_list (user : option string) (resp : Response) (s : Screen) :
  refreshing (onRefresh user resp s) = false /\
  (user = None ->
   fetchTransactions user resp s = s /\
   loading (fetchTransactions user resp initial) = true) /\
  (user <> None ->
   loading (fetchTransactions user resp s) = false /\
   (error resp <> None ->
    transactions (fetchTransactions user resp s) = transactions s /\
    totalCredits (transactions (onRefresh user resp s)) = totalCredits (transactions s) /\
    totalDebits (transactions (onRefresh user resp s)) = totalDebits (transactions s)) /\
   (error resp = None -> data resp = None ->
    transactions (fetchTransactions user resp s) = []) /\
   (error resp = None -> forall l, data resp = Some l ->
    transactions (fetchTransactions user resp s) = l)).
Proof.
  unfold onRefresh, fetchTransactions.
  split; [reflexivity|]. split.
  - intros ->. now split.
  - intros Hu. destruct user as [uid|]; [|contradiction].
    split; [reflexivity|]. split; [|split].
    + intros He. destruct (error resp); [|contradiction]. now repeat split.
    + intros -> ->. reflexivity.
    + intros -> l ->. reflexivity.
Qed.

(** X22.  A transaction is drawn as a credit (green, plus sign) exactly when
    its type is credit and as a debit otherwise, whatever its status.  So a
    credit that is not completed is drawn as a credit and counted in no
    total, and a completed transaction of any third type is drawn as a debit
    and counted in no total either. *)
Theorem drawn_but_not_counted (t : Transaction) (before after : list Transaction) :
  (amountSign t = "+" <-> type t = "credit") /\
  (getTransactionColor (type t) = "#10B981" <-> type t = "credit") /\
  (type t = "credit" -> status t <> "completed" ->
   amountSign t = "+" /\
   totalCredits (before ++ t :: after) = totalCredits (before ++ after) /\
   totalDebits (before ++ t :: after) = totalDebits (before ++ after)) /\
  (type t <> "credit" -> type t <> "debit" ->
   amountSign t = "-" /\ getTransactionColor (type t) = "#EF4444" /\
   totalCredits (before ++ t :: after) = totalCredits (before ++ after) /\
   totalDebits (before ++ t :: after) = totalDebits (before ++ after)).
Proof.
  split; [|split; [|split]].
  - unfold amountSign. destruct (String.eqb (type t) "credit") eqn:Hc.
    + apply String.eqb_eq in Hc. tauto.
    + apply String.eqb_neq in Hc. split; [discriminate | contradiction].
  - unfold getTransactionColor. destruct (String.eqb (type t) "credit") eqn:Hc.
    + apply String.eqb_eq in Hc. tauto.
    + apply String.eqb_neq in Hc. split; [discriminate | contradiction].
  - intros Hc Hs. apply String.eqb_neq in Hs.
    destruct (totals_as_sums (before ++ t :: after)) as [-> ->].
    destruct (totals_as_sums (before ++ after)) as [-> ->].
    unfold amountSign. rewrite Hc. split; [reflexivity|].
    split; apply skipped_in_sum; rewrite Hs; apply andb_false_r.
  - intros Hc Hd. apply String.eqb_neq in Hc, Hd.
    destruct (totals_as_sums (before ++ t :: after)) as [-> ->].
    destruct (totals_as_sums (before ++ after)) as [-> ->].
    unfold amountSign, getTransactionColor. rewrite Hc.
    split; [reflexivity|]. split; [reflexivity|].
    split; apply skipped_in_sum; [now rewrite Hc | now rewrite Hd].
Qed.

End WalletExtras.

(** * Properties of the customer home screen *)

Section HomeExtras.

Import HomeScreen.

(** X24.  [fetchProducts] never lets a failure change the products on
    screen.  Without a session it only clears [loading]; on an error it
    keeps the list and raises its alert unless the message of the error
    contains "Auth session missing"; on success it shows the rows received,
    or none when the store sent no data. *)
Theorem products_survive_failed_fetch (r : Reply Product) (s : Screen) :
  specialOffers (fetchProducts r s) = specialOffers s /\
  (session r = false -> fetchProducts r s = setLoading false s) /\
  (session r = true -> forall e, error r = Some e ->
     products (fetchProducts r s) = products s /\
     loading (fetchProducts r s) = loading s /\
     (Js.includes (message e) "Auth session missing" = true ->
      alerts (fetchProducts r s) = alerts s) /\
     (Js.includes (message e) "Auth session missing" = false ->
      alerts (fetchProducts r s)
      = (alerts s ++ [("Error", "Failed to load products")])%list)) /\
  (session r = true -> error r = None ->
     alerts (fetchProducts r s) = alerts s /\
     loading (fetchProducts r s) = loading s /\
     (data r = None -> products (fetchProducts r s) = []) /\
     (forall l, data r = Some l -> products (fetchProducts r s) = l)).
Proof.
  unfold fetchProducts. split; [|split; [|split]].
  - destruct (session r); cbn; [|reflexivity].
    destruct (error r) as [e|]; [|reflexivity].
    now destruct (negb (Js.includes (message e) "Auth session missing")).
  - now intros ->.
  - intros -> e ->. cbn.
    destruct (Js.includes (message e) "Auth session missing"); cbn;
      repeat split; intros; reflexivity || discriminate.
  - intros -> ->. cbn. repeat split.
    + now intros ->.
    + now intros l ->.
Qed.

(** X25.  When the profile changes, the screen always leaves its loading
    state, with or without a profile and whatever the two fetches meet.  The
    two fetches do not interfere: the products depend on the reply to the
    first only, the offers on the reply to the second only, and running them
    in the other order gives the same screen. *)
Theorem home_always_stops_loading (profile : option Profile)
  (rp : Reply Product) (ro : Reply SpecialOffer) (s : Screen) :
  loading (onProfile profile rp ro s) = false /\
  fetchSpecialOffers ro (fetchProducts rp s) = fetchProducts rp (fetchSpecialOffers ro s) /\
  products (onProfile profile rp ro s)
  = match profile with
    | Some _ => products (fetchProducts rp s)
    | None => products s
    end /\
  specialOffers (onProfile profile rp ro s)
  = match profile with
    | Some _ => specialOffers (fetchSpecialOffers ro s)
    | None => specialOffers s
    end /\
  (profile = None -> onProfile profile rp ro s = setLoading false s).
Proof.
  unfold onProfile, fetchProducts, fetchSpecialOffers.
  destruct profile as [pr|]; destruct (session rp), (session ro);
    destruct (error rp) as [e|]; destruct (error ro) as [e'|]; cbn;
    try destruct (negb (Js.includes (message e) "Auth session missing"));
    repeat split; try reflexivity; discriminate.
Qed.

Section Display.

Variable formatCurrency : Z -> string -> string.
Variable convertFromNGN : Z -> string -> Z.

(** X26.  Product prices and the wallet balance are shown in one and the
    same currency, never an empty one, and with the same conversion: for a
    profile without a preferred currency, or with NGN, both are formatted in
    NGN and no conversion is applied; otherwise both are converted to the
    preferred currency and formatted in it.  Without a profile the wallet
    shows zero in NGN. *)
Theorem prices_and_wallet_share_currency (p : Profile) (price : Z) :
  getWalletBalance formatCurrency convertFromNGN None = formatCurrency 0 "NGN" /\
  formatProductPrice formatCurrency convertFromNGN None price
  = formatCurrency price "NGN" /\
  exists cur,
    cur <> "" /\
    (cur = "NGN" <->
     (Js.truthy (preferred_currency p) = false \/ preferred_currency p = Some "NGN")) /\
    (cur <> "NGN" -> preferred_currency p = Some cur) /\
    formatProductPrice formatCurrency convertFromNGN (Some p) price
    = formatCurrency (if String.eqb cur "NGN" then price
                      else convertFromNGN price cur) cur /\
    getWalletBalance formatCurrency convertFromNGN (Some p)
    = formatCurrency (if String.eqb cur "NGN" then wallet_balance p
                      else convertFromNGN (wallet_balance p) cur) cur.
Proof.
  split; [reflexivity|]. split; [reflexivity|].
  unfold formatProductPrice, getWalletBalance, Js.or_else.
  destruct (preferred_currency p) as [[|c cur]|] eqn:Hpc.
  - exists "NGN". cbn.
    repeat split; try discriminate; try tauto; try congruence.
  - destruct (String.eqb (String c cur) "NGN") eqn:Hn.
    + apply String.eqb_eq in Hn. rewrite Hn. exists "NGN". cbn.
      repeat split; try discriminate; try tauto; try congruence.
    + exists (String c cur). cbn [Js.truthy negb orb]. rewrite Hn.
      apply String.eqb_neq in Hn.
      repeat split; try discriminate; try tauto; try congruence.
      intros [H | H]; [discriminate | congruence].
  - exists "NGN". cbn.
    repeat split; try discriminate; try tauto; try congruence.
Qed.

End Display.

End HomeExtras.

(** * The further properties at the sample data *)

Section ExtraWitnesses.

Import OrderDetailsModal Sample.

Lemma no_refund_unless_cancelling_paid_witness :
  "shipped" <> "cancelled" /\
  tbl_profiles (store (snd (handleStatusUpdate shipping "shipped" (world shop []))))
  = tbl_profiles shop /\
  tbl_transactions (store (snd (handleStatusUpdate shipping "shipped" (world shop []))))
  = [].
Proof.
  assert (H : "shipped" <> "cancelled") by discriminate.
  split; [exact H|].
  exact (proj2 (no_refund_unless_cancelling_paid shipping "shipped" (world shop [])
                  (or_introl H))).
Defined.

Lemma status_write_then_notification_witness :
  "shipped" <> "cancelled" /\
  next_fault (world shop [None; Some timeout]) = None /\
  calls (snd (handleStatusUpdate shipping "shipped" (world shop [None; Some timeout])))
  = [UpdateOrderStatus "0123456789abcdef" "shipped";
     InsertNotification (statusNotification paidOrder "shipped")] /\
  tbl_notifications
    (store (snd (handleStatusUpdate shipping "shipped" (world shop [None; Some timeout]))))
  = [].
Proof.
  assert (H : "shipped" <> "cancelled") by discriminate.
  assert (Hf : fault_at 1 (faults (world shop [None; Some timeout])) <> None)
    by discriminate.
  split; [exact H|]. split; [reflexivity|].
  pose proof (status_write_then_notification shipping "shipped"
                (world shop [None; Some timeout]) H eq_refl) as Hthm.
  split; [exact (proj1 Hthm)|].
  exact (proj2 (proj2 (proj2 (proj2 Hthm))) Hf).
Defined.

Lemma status_write_refused_witness :
  "shipped" <> "cancelled" /\
  next_fault (world shop [Some timeout]) = Some timeout /\
  store (snd (handleStatusUpdate shipping "shipped" (world shop [Some timeout])))
  = shop.
Proof.
  assert (H : "shipped" <> "cancelled") by discriminate.
  split; [exact H|]. split; [reflexivity|].
  exact (proj1 (status_write_refused shipping "shipped" (world shop [Some timeout])
                  timeout H eq_refl)).
Defined.

Lemma custom_status_update_frame_witness :
  isCustomOrder customOrder = true /\
  tbl_orders (store (snd (handleStatusUpdate quoting "cancelled" (world shop []))))
  = tbl_orders shop /\
  tbl_custom_requests
    (store (snd (handleStatusUpdate quoting "cancelled" (world shop [])))) !! "r1"
  = Some {| c_user_id := "u1"; c_title := "Team jerseys"; c_status := "cancelled";
            c_invoice_sent := false |}.
Proof.
  split; [reflexivity|].
  pose proof (custom_status_update_frame quoting "cancelled" (world shop []) eq_refl)
    as H.
  split; [exact (proj1 H)|].
  exact (proj2 (proj2 (proj2 (proj2 H))) eq_refl requestRow eq_refl).
Defined.

Lemma status_option_inert_witness :
  currentStatus (order shipping) = Some "confirmed" /\
  press parseDigits fixedRate shipping (PressStatusOption "confirmed") (world shop [])
  = (Returned tt, world shop []) /\
  press parseDigits fixedRate shipping (PressStatusOption "quoted") (world shop [])
  = (Returned tt, world shop []).
Proof.
  assert (H : ~ In "quoted" (if isCustomOrder (order shipping)
                             then customStatusOptions else statusOptions)).
  { cbn. intros [H | [H | [H | [H | [H | [H | []]]]]]]; discriminate. }
  split; [reflexivity|]. split.
  - exact (status_option_inert parseDigits fixedRate shipping "confirmed"
             (world shop []) (or_intror (or_introl eq_refl))).
  - exact (status_option_inert parseDigits fixedRate shipping "quoted"
             (world shop []) (or_intror (or_intror (or_intror H)))).
Defined.

Lemma send_button_passes_guards_witness :
  canSendInvoice quoting = true /\
  invoiceAlreadySentCard quoting = false /\
  exists later,
    calls (snd (handleSendInvoice parseDigits fixedRate quoting (world shop [])))
    = (InsertInvoice (builtInvoice parseDigits fixedRate quoting) :: later)%list.
Proof.
  split; [reflexivity|].
  pose proof (send_button_passes_guards parseDigits fixedRate quoting (world shop [])
                eq_refl (proj1 quote_filled) (proj2 quote_filled)) as H.
  split; [exact (proj1 H)|].
  exact (proj2 (proj2 (proj2 H))).
Defined.

Lemma send_invoice_half_applied_witness :
  fault_at 0 (faults (world shop [None; Some timeout])) = None /\
  fault_at 1 (faults (world shop [None; Some timeout])) = Some timeout /\
  tbl_invoices
    (store (snd (handleSendInvoice parseDigits fixedRate quoting
                   (world shop [None; Some timeout]))))
  = [builtInvoice parseDigits fixedRate quoting] /\
  tbl_custom_requests
    (store (snd (handleSendInvoice parseDigits fixedRate quoting
                   (world shop [None; Some timeout]))))
  = tbl_custom_requests shop.
Proof.
  split; [reflexivity|]. split; [reflexivity|].
  pose proof (send_invoice_half_applied parseDigits fixedRate quoting
                (world shop [None; Some timeout]) timeout
                (proj1 quote_filled) (proj2 quote_filled) not_yet_sent
                (or_intror eq_refl) eq_refl eq_refl eq_refl) as H.
  split; [exact (proj1 H) | exact (proj1 (proj2 H))].
Defined.

Lemma send_invoice_unrecognised_error_witness :
  recognised duplicateElsewhere = false /\
  recognised unique_violation = true /\
  store (snd (handleSendInvoice parseDigits fixedRate quoting
                (world shop [Some duplicateElsewhere])))
  = shop /\
  ui (snd (handleSendInvoice parseDigits fixedRate quoting
             (world shop [Some duplicateElsewhere])))
  = [ConsoleError "Error sending invoice:"; Alert "Error" "Failed to send invoice"].
Proof.
  split; [reflexivity|]. split; [reflexivity|].
  pose proof (send_invoice_unrecognised_error parseDigits fixedRate quoting
                (world shop [Some duplicateElsewhere]) duplicateElsewhere
                (proj1 quote_filled) (proj2 quote_filled) not_yet_sent
                (or_intror eq_refl) eq_refl eq_refl) as H.
  split; [exact (proj1 H) | exact (proj2 (proj2 H))].
Defined.

Lemma refund_third_step_refused_witness :
  profiles paidOrder = Some ada /\
  fault_at 2 (faults (world shop [None; None; Some timeout])) = Some timeout /\
  fst (handleRefund shipping (world shop [None; None; Some timeout])) = Thrown timeout /\
  tbl_transactions
    (store (snd (handleRefund shipping (world shop [None; None; Some timeout]))))
  = [refundEntry paidOrder] /\
  tbl_orders (store (snd (handleRefund shipping (world shop [None; None; Some timeout]))))
  = tbl_orders shop.
Proof.
  split; [reflexivity|]. split; [reflexivity|].
  pose proof (refund_third_step_refused shipping ada
                (world shop [None; None; Some timeout]) timeout
                eq_refl eq_refl eq_refl eq_refl) as H.
  split; [exact (proj1 H)|].
  split; [exact (proj1 (proj2 (proj2 (proj2 H))))
         | exact (proj2 (proj2 (proj2 (proj2 H))))].
Defined.

Lemma refund_retried_witness :
  profiles paidOrder = Some ada /\
  accepts 3 [] = true /\
  tbl_transactions
    (store (snd (handleRefund shipping
                   (snd (handleRefund shipping
                           (world shop [None; None; Some timeout]))))))
  = [refundEntry paidOrder; refundEntry paidOrder] /\
  tbl_profiles
    (store (snd (handleRefund shipping
                   (snd (handleRefund shipping
                           (world shop [None; None; Some timeout]))))))
  = alter (set_wallet (2000 + 15000)) "u1" (tbl_profiles shop).
Proof.
  split; [reflexivity|]. split; [reflexivity|].
  pose proof (refund_retried shipping ada (world shop [None; None; Some timeout])
                timeout [] eq_refl eq_refl eq_refl) as H.
  split; [exact (proj1 (proj2 (proj2 H))) | exact (proj1 (proj2 H))].
Defined.

End ExtraWitnesses.

Section BridgeExtraWitnesses.

Import PaystackPayment Sample.

Lemma success_only_from_provider_witness :
  spliceable checkout = true /\
  In (OnSuccess "paid")
    (host (run checkout (present true ReactNativeWebView)
             [ClickPay attempt; OpenTimer false; ProviderCallback "paid"])) /\
  In (ProviderCallback "paid")
    [ClickPay attempt; OpenTimer false; ProviderCallback "paid"].
Proof.
  assert (H : In (OnSuccess "paid")
                (host (run checkout (present true ReactNativeWebView)
                         [ClickPay attempt; OpenTimer false; ProviderCallback "paid"])))
    by (left; reflexivity).
  split; [reflexivity|]. split; [exact H|].
  exact (success_only_from_provider checkout true ReactNativeWebView _ "paid"
           eq_refl H).
Defined.

Lemma present_idle : idle (present true ReactNativeWebView).
Proof. repeat split. Defined.

Lemma payment_round_trip_witness :
  spliceable checkout = true /\
  idle (present true ReactNativeWebView) /\
  host (run checkout (present true ReactNativeWebView)
          [ClickPay attempt; OpenTimer false; ProviderCallback "paid"])
  = [OnSuccess "paid"] /\
  idle (run checkout (present true ReactNativeWebView)
          [ClickPay attempt; OpenTimer false; ProviderCallback "paid"]).
Proof.
  split; [reflexivity|]. split; [exact present_idle|].
  pose proof (payment_round_trip checkout (present true ReactNativeWebView) attempt
                "paid" eq_refl present_idle eq_refl channel_present eq_refl) as H.
  split; [exact (proj1 H) | exact (proj2 (proj2 (proj2 (proj2 (proj2 H)))))].
Defined.

Lemma no_bridge_no_report_witness :
  forallb (fun e => negb (webview_event e))
    [ClickPay attempt; OpenTimer true; ClickCancel] = true /\
  host (run checkout (present true NoChannel)
          [ClickPay attempt; OpenTimer true; ClickCancel]) = [].
Proof.
  split; [reflexivity|].
  exact (no_bridge_no_report checkout true
           [ClickPay attempt; OpenTimer true; ClickCancel] eq_refl).
Defined.

End BridgeExtraWitnesses.
